(** * imexam: the interactive examination session of [imexam/connect.py]

    A shallow embedding of the [Connect] class: the constructor's viewer
    check, the session entry point [imexam], the loop [_run_imexam], and the
    thin delegating methods [unlearn], [plotname] and [register].

    The class talks to two collaborators whose modules are not part of
    [connect.py]: the display window ([ds9_basic.ds9]) and the examination
    object ([imexamine.Imexamine]).  Both are modelled at their interface, the
    way the specification describes them (ViewerAdapter and KeyRegistry). *)

From Stdlib Require Import String Ascii List Bool Arith ZArith Lia.
From Stdlib Require Import Floats.
Import ListNotations.
Open Scope string_scope.
Open Scope list_scope.

(* ================================================================== *)
(** ** Python values that flow through the session *)

(** Image coordinates are Python floats; the pixel buffer is a 2-D array of
    floats.  The session only passes them along. *)
Definition coord := float.
Definition PixelBuffer := list (list float).

(** Exceptions.  [KeyError] stands for any instance of Python's [KeyError]
    (what an [except KeyError] clause catches); [OtherError cls] is an
    exception of class [cls] that is not an instance of [KeyError]. *)
Inductive exn : Type :=
| KeyError
| IndexError
| NameError (name : string)
| UnboundLocalError (name : string)
| NotImplementedError
| InvalidBindingError
| OtherError (cls : string).

(** Outcome of running a piece of the program: a value, a raised exception,
    a session that waits for the user for ever ([Blocked]: the cursor read
    never returns), or a loop cut by the model's fuel. *)
Inductive result (A : Type) : Type :=
| Ok (a : A)
| Raise (e : exn)
| Blocked
| OutOfFuel.
Arguments Ok {A} a.
Arguments Raise {A} e.
Arguments Blocked {A}.
Arguments OutOfFuel {A}.

(** A handler is a Python object; the registry only asks whether it can be
    called as [handler(buffer, x, y)]. *)
Inductive pyobj : Type :=
| PyFunc (name : string) (arity : nat)
| PyOther (repr : string).

(** Values stored in a parameter dictionary. *)
Inductive pyval : Type :=
| PInt (n : Z)
| PFloat (f : float)
| PStr (s : string)
| PBool (b : bool).

Definition params := list (string * pyval).

(** Calls made on the display window, recorded to count them. *)
Inductive viewer_call : Type :=
| CallStart (target path : option string) (wait_time : Z) (quit_ds9_on_del : bool)
| CallFrame
| CallGetFilename
| CallGetData
| CallReadCursor.

(** Everything observable the session does, in the order it happens. *)
Inductive event : Type :=
| Print (s : string)
| PrintOption (key description : string)
| Warn (s : string)
| LogInfo (s : string)
| ViewerCall (c : viewer_call)
| OsAccess (path : string)
| Invoke (handler : pyobj) (buffer : PixelBuffer) (x y : coord).

(* ================================================================== *)
(** ** Python string operations used by the class *)

Module PyStr.

(** [str.lower()] on the characters a viewer name is made of. *)
Definition lower_ascii (c : ascii) : ascii :=
  let n := nat_of_ascii c in
  if ((65 <=? n) && (n <=? 90))%nat then ascii_of_nat (n + 32) else c.

Fixpoint lower (s : string) : string :=
  match s with
  | EmptyString => EmptyString
  | String c t => String (lower_ascii c) (lower t)
  end.

(** [needle in hay] on strings: substring test. *)
Fixpoint contains (needle hay : string) : bool :=
  String.prefix needle hay ||
  match hay with
  | EmptyString => false
  | String _ t => contains needle t
  end.

(** [s in l] on a list of strings. *)
Definition mem (s : string) (l : list string) : bool :=
  existsb (String.eqb s) l.

(** Truth value of a string: the empty string is false. *)
Definition truthy (s : string) : bool :=
  match s with EmptyString => false | String _ _ => true end.

Definition newline : string := String (ascii_of_nat 10) EmptyString.

End PyStr.

(* ================================================================== *)
(** ** The display window, as the session sees it *)

(** What the viewer shows at one moment: the frame identity, the filename of
    the image in that frame (empty when no image is loaded) and its pixels. *)
Record display : Type := mkDisplay {
  d_frame : string;
  d_filename : string;
  d_data : PixelBuffer
}.

(** One interaction of the user with the viewer: a key press at a position,
    or a failed read. *)
Inductive cursor_outcome : Type :=
| CursorOk (x y : coord) (key : string)
| CursorFail (e : exn).

(** Modelled from the spec: the ds9 window class is not part of connect.py;
    the viewer offers exactly frame identity, filename, pixel data and a
    blocking cursor read.  [pending] is what the user will do: each cursor
    read returns the next outcome, after which the viewer shows the paired
    display (the user may have switched frames meanwhile).  With nothing
    pending the cursor read never returns. *)
Record Viewer : Type := mkViewer {
  shown : display;
  pending : list (cursor_outcome * display)
}.

(* ================================================================== *)
(** ** The examination object (key registry) *)

Module Imexamine.

(** Modelled from the spec: a binding is a key, its handler, a one-line
    description and a parameter record; the record's documented default is
    kept next to it. *)
Record KeyBinding : Type := mkBinding {
  key : string;
  handler : pyobj;
  description : string;
  parameters : params;
  defaults : params
}.

(** Modelled from the spec: the Imexamine class is not part of connect.py.
    It holds the bindings in registration order, the pixel buffer of the
    current frame and the default plot name. *)
Record t : Type := mk {
  imexam_option_funcs : list KeyBinding;
  _data : PixelBuffer;
  plot_name : string
}.

Definition with_bindings (r : list KeyBinding) (e : t) : t :=
  mk r (_data e) (plot_name e).

(** Modelled from the spec: resolve(key) is an exact, case-sensitive lookup. *)
Definition resolve (k : string) (e : t) : option KeyBinding :=
  find (fun b => String.eqb (key b) k) (imexam_option_funcs e).

(** Modelled from the spec: list_keys() (get_options in connect.py) gives the
    keys in registration order. *)
Definition get_options (e : t) : list string :=
  map key (imexam_option_funcs e).

(** Modelled from the spec: keys are unique and registration order is kept.
    For a key that is already bound the docstring of [Connect.register] in
    connect.py is followed, not the spec: "the new binding will be added to
    the dictionary of imexamine functions as long as the key is unique".  So
    a binding is added at the end when its key is new, and a key that is
    already bound keeps the binding it has. *)
Fixpoint put (b : KeyBinding) (r : list KeyBinding) : list KeyBinding :=
  match r with
  | [] => [b]
  | b' :: r' => if String.eqb (key b') (key b) then b' :: r' else b' :: put b r'
  end.

(** The argument of register: key -> (handler, description[, parameters]),
    in the iteration order of the dictionary. *)
Definition user_funcs : Type := list (string * (pyobj * string * option params)).

Definition callable_on_buffer_x_y (h : pyobj) : bool :=
  match h with
  | PyFunc _ 3 => true
  | _ => false
  end.

Definition valid_entry (u : string * (pyobj * string * option params)) : bool :=
  let '(k, (h, _, _)) := u in
  (String.length k =? 1)%nat && callable_on_buffer_x_y h.

Definition binding_of (u : string * (pyobj * string * option params)) : KeyBinding :=
  let '(k, (h, d, p)) := u in
  let pars := match p with Some q => q | None => [] end in
  mkBinding k h d pars pars.

Definition put_all (ufs : user_funcs) (r : list KeyBinding) : list KeyBinding :=
  fold_left (fun acc u => put (binding_of u) acc) ufs r.

(** Modelled from the spec: register takes the entries in turn and fails
    with InvalidBindingError if a key is not a single character or a handler
    is not callable as handler(buffer, x, y); a failed call registers
    nothing.  Each entry is added by [put]: as long as its key is unique. *)
Definition register (ufs : user_funcs) (e : t) : result unit * t :=
  if forallb valid_entry ufs
  then (Ok tt, with_bindings (put_all ufs (imexam_option_funcs e)) e)
  else (Raise InvalidBindingError, e).

Definition reset_binding (b : KeyBinding) : KeyBinding :=
  mkBinding (key b) (handler b) (description b) (defaults b) (defaults b).

(** Modelled from the spec: unlearn_all resets every binding's parameter
    record to its default, without removing the bindings. *)
Definition unlearn_all (e : t) : t :=
  with_bindings (map reset_binding (imexam_option_funcs e)) e.

(** Modelled from the spec: the pixel buffer is replaced wholesale. *)
Definition set_data (d : PixelBuffer) (e : t) : t :=
  mk (imexam_option_funcs e) d (plot_name e).

(** Modelled from the spec: on session start the console shows each
    available key with a one-line description. *)
Definition print_options (e : t) : list event :=
  map (fun b => PrintOption (key b) (description b)) (imexam_option_funcs e).

(** Modelled from the spec: the bound handler is called with the current
    pixel buffer and the position of the cursor.  A key without a binding is
    a failed dictionary lookup. *)
Definition do_option (x y : coord) (k : string) (e : t) : result unit * list event :=
  match resolve k e with
  | Some b => (Ok tt, [Invoke (handler b) (_data e) x y])
  | None => (Raise KeyError, [])
  end.

(** Modelled from the spec: the spec is silent on plot names; the docstring
    of Connect.plotname says the current default is shown or changed. *)
Definition get_plot_name (e : t) : list event := [Print (plot_name e)].

Definition set_plot_name (f : string) (e : t) : t :=
  mk (imexam_option_funcs e) (_data e) f.

End Imexamine.

(* ================================================================== *)
(** ** The Connect class *)

Module Connect.

(** The window object built by the constructor (the arguments it was
    started with). *)
Record ds9 : Type := mk_ds9 {
  target : option string;
  path : option string;
  wait_time : Z;
  quit_ds9_on_del : bool
}.

(** The attributes of a Connect instance. *)
Record t : Type := mk {
  window : ds9;
  exam : Imexamine.t;
  current_frame : string;
  logfile : string
}.

(** The instance, the viewer it talks to, and what has been observed. *)
Record State : Type := mkState {
  self : t;
  viewer : Viewer;
  trace : list event
}.

Definition M (A : Type) : Type := State -> result A * State.

Definition ret {A : Type} (a : A) : M A := fun s => (Ok a, s).

Definition bind {A B : Type} (m : M A) (k : A -> M B) : M B :=
  fun s =>
    match m s with
    | (Ok a, s') => k a s'
    | (Raise e, s') => (Raise e, s')
    | (Blocked, s') => (Blocked, s')
    | (OutOfFuel, s') => (OutOfFuel, s')
    end.

Notation "x <- m ;; k" := (bind m (fun x => k))
  (at level 61, m at next level, right associativity).
Notation "m ;;; k" := (bind m (fun _ => k))
  (at level 61, right associativity).

Definition raise {A : Type} (e : exn) : M A := fun s => (Raise e, s).

(** [try: m except KeyError: h]. *)
Definition try_except_KeyError {A : Type} (m h : M A) : M A :=
  fun s =>
    match m s with
    | (Raise KeyError, s') => h s'
    | r => r
    end.

Definition emit (e : event) : M unit :=
  fun s => (Ok tt, mkState (self s) (viewer s) (trace s ++ [e])).

Definition emit_all (es : list event) : M unit :=
  fun s => (Ok tt, mkState (self s) (viewer s) (trace s ++ es)).

Definition get_self : M t := fun s => (Ok (self s), s).

Definition set_exam (e : Imexamine.t) : M unit :=
  fun s =>
    let c := self s in
    (Ok tt, mkState (mk (window c) e (current_frame c) (logfile c)) (viewer s) (trace s)).

Definition set_current_frame (f : string) : M unit :=
  fun s =>
    let c := self s in
    (Ok tt, mkState (mk (window c) (exam c) f (logfile c)) (viewer s) (trace s)).

(** *** Calls on the window *)

Definition window_frame : M string :=
  fun s => (Ok (d_frame (shown (viewer s))),
            mkState (self s) (viewer s) (trace s ++ [ViewerCall CallFrame])).

Definition window_get_filename : M string :=
  fun s => (Ok (d_filename (shown (viewer s))),
            mkState (self s) (viewer s) (trace s ++ [ViewerCall CallGetFilename])).

Definition window_get_data : M PixelBuffer :=
  fun s => (Ok (d_data (shown (viewer s))),
            mkState (self s) (viewer s) (trace s ++ [ViewerCall CallGetData])).

Definition window_readcursor : M (coord * coord * string) :=
  fun s =>
    let tr := trace s ++ [ViewerCall CallReadCursor] in
    match pending (viewer s) with
    | [] => (Blocked, mkState (self s) (viewer s) tr)
    | (CursorOk x y k, d) :: rest => (Ok (x, y, k), mkState (self s) (mkViewer d rest) tr)
    | (CursorFail e, d) :: rest => (Raise e, mkState (self s) (mkViewer d rest) tr)
    end.

(** *** Calls on the examination object *)

Definition exam_set_data (d : PixelBuffer) : M unit :=
  c <- get_self ;; set_exam (Imexamine.set_data d (exam c)).

Definition exam_get_options : M (list string) :=
  c <- get_self ;; ret (Imexamine.get_options (exam c)).

Definition exam_print_options : M unit :=
  c <- get_self ;; emit_all (Imexamine.print_options (exam c)).

Definition exam_do_option (x y : coord) (k : string) : M unit :=
  c <- get_self ;;
  let '(r, es) := Imexamine.do_option x y k (exam c) in
  emit_all es ;;;
  match r with
  | Ok _ => ret tt
  | Raise e => raise e
  | Blocked => fun s => (Blocked, s)
  | OutOfFuel => fun s => (OutOfFuel, s)
  end.

(** *** Python statements *)

Definition print (s : string) : M unit := emit (Print s).
Definition warnings_warn (s : string) : M unit := emit (Warn s).
Definition logging_info (s : string) : M unit := emit (LogInfo s).

(** [l[0]]. *)
Definition head_item (l : list string) : M string :=
  match l with
  | [] => raise IndexError
  | k :: _ => ret k
  end.

(** Reading a local variable that may not have been assigned yet. *)
Definition read_local (name : string) (v : option coord) : M coord :=
  match v with
  | Some c => ret c
  | None => raise (UnboundLocalError name)
  end.

(** The names bound at module level in connect.py: its imports and its
    definitions.  Any other global name that is not a builtin is undefined. *)
Definition module_globals : list string :=
  ["print_function"; "division"; "absolute_import"; "warnings"; "logging";
   "subprocess"; "set_logging"; "find_xpans"; "xpa"; "ds9"; "Imexamine";
   "__all__"; "Connect"].

Definition global_name (n : string) : M unit :=
  if PyStr.mem n module_globals then ret tt else raise (NameError n).

(** *** Methods *)

Definition _possible_viewers : list string := ["ds9"].

(** [Connect.__init__].  [new_exam] is the fresh [Imexamine()] instance and
    [v] the viewer the window connects to.  Returns the instance, or the
    exception, with the events of the call. *)
Definition __init__ (new_exam : Imexamine.t) (target path : option string)
    (viewer_name : string) (wait_time : Z) (quit_window : bool) (v : Viewer)
    : result t * list event :=
  if negb (PyStr.mem (PyStr.lower viewer_name) _possible_viewers)
  then (Raise NotImplementedError, [Warn ("**Unsupported viewer" ++ PyStr.newline)])
  else
    if PyStr.contains "ds9" (PyStr.lower viewer_name)
    then
      let w := mk_ds9 target path wait_time quit_window in
      (Ok (mk w new_exam (d_frame (shown v)) "imexam_log.txt"),
       [ViewerCall (CallStart target path wait_time quit_window); ViewerCall CallFrame])
    else (Raise (OtherError "AttributeError"), []).

Definition frame : M string := window_frame.
Definition get_data : M PixelBuffer := window_get_data.
Definition get_data_filename : M string := window_get_filename.
Definition readcursor : M (coord * coord * string) := window_readcursor.

(** The local variables of [_run_imexam] that the loop assigns. *)
Record locals : Type := mkLocals {
  x : option coord;
  y : option coord;
  current_key : option string
}.

(** Truth value of [current_key] in [while current_key:]. *)
Definition key_truthy (k : option string) : bool :=
  match k with
  | Some s => PyStr.truthy s
  | None => false
  end.

(** Lines 102-106: refresh the data when the user has changed frames. *)
Definition refresh_if_changed : M unit :=
  check_frame <- frame ;;
  c <- get_self ;;
  if negb (String.eqb (current_frame c) check_frame)
  then
    d <- window_get_data ;;
    exam_set_data d ;;;
    set_current_frame check_frame ;;;
    fn <- get_data_filename ;;
    logging_info ("Current image " ++ fn)
  else ret tt.

(** Lines 107-111: the cursor read under [try ... except KeyError]. *)
Definition read_event (l : locals) : M (option coord * option coord * string) :=
  try_except_KeyError
    (r <- readcursor ;;
     let '(cx, cy, k) := r in
     ret (Some cx, Some cy, k))
    (print "Invalid key" ;;;
     ret (x l, y l, "q")).

(** Lines 112-117: classify the key. *)
Definition classify (keys : list string) (ev : option coord * option coord * string)
    : M locals :=
  let '(ex, ey, k) := ev in
  if negb (PyStr.mem k keys) && negb (PyStr.contains "q" k)
  then print "Invalid key" ;;; ret (mkLocals ex ey (Some k))
  else if PyStr.contains "q" k
  then ret (mkLocals ex ey None)
  else
    cx <- read_local "x" ex ;;
    cy <- read_local "y" ey ;;
    exam_do_option cx cy k ;;;
    ret (mkLocals ex ey (Some k)).

(** One pass through the body of the [while] loop. *)
Definition loop_body (keys : list string) (l : locals) : M locals :=
  refresh_if_changed ;;;
  ev <- read_event l ;;
  classify keys ev.

(** [while current_key: ...]; the fuel bounds the number of passes. *)
Fixpoint while_current_key (fuel : nat) (keys : list string) (l : locals) : M unit :=
  if key_truthy (current_key l)
  then
    match fuel with
    | O => fun s => (OutOfFuel, s)
    | S fuel' => l' <- loop_body keys l ;; while_current_key fuel' keys l'
    end
  else ret tt.

Definition banner : string :=
  PyStr.newline ++ "Press 'q' to quit" ++ PyStr.newline.

Definition _run_imexam (fuel : nat) : M unit :=
  print banner ;;;
  keys <- exam_get_options ;;
  exam_print_options ;;;
  k0 <- head_item keys ;;
  fn <- get_data_filename ;;
  logging_info ("Current image " ++ fn) ;;;
  while_current_key fuel keys (mkLocals None None (Some k0)).

Definition imexam (fuel : nat) : M unit :=
  validImage <- get_data_filename ;;
  if PyStr.truthy validImage
  then
    d <- window_get_data ;;
    exam_set_data d ;;;
    f <- frame ;;
    set_current_frame f ;;;
    _run_imexam fuel
  else warnings_warn "No image loaded in viewer".

Definition unlearn : M unit :=
  c <- get_self ;; set_exam (Imexamine.unlearn_all (exam c)).

(** [os.access(filename, os.F_OK)] against the files that exist. *)
Definition os_access (files : list string) (filename : string) : M bool :=
  emit (OsAccess filename) ;;; ret (PyStr.mem filename files).

(** Truth value of the [filename] argument ([None] by default). *)
Definition arg_truthy (filename : option string) : bool :=
  match filename with
  | Some f => PyStr.truthy f
  | None => false
  end.

(** [Connect.plotname].  [files] are the paths that exist.  The name [os] is
    looked up before [os.access] can be called.  In the branch of an existing
    file the message is built with the format field [{0s}], which is not a
    positional index, so [format] looks the key [0s] up and fails. *)
Definition plotname (files : list string) (filename : option string) : M unit :=
  if negb (arg_truthy filename)
  then c <- get_self ;; emit_all (Imexamine.get_plot_name (exam c))
  else
    let f := match filename with Some f => f | None => "" end in
    global_name "os" ;;;
    found <- os_access files f ;;
    if found
    then raise KeyError
    else c <- get_self ;; set_exam (Imexamine.set_plot_name f (exam c)).

Definition register (user_funcs : Imexamine.user_funcs) : M unit :=
  c <- get_self ;;
  let '(r, e) := Imexamine.register user_funcs (exam c) in
  set_exam e ;;;
  match r with
  | Ok _ => ret tt
  | Raise ex => raise ex
  | Blocked => fun s => (Blocked, s)
  | OutOfFuel => fun s => (OutOfFuel, s)
  end.

End Connect.

(* ================================================================== *)
(** ** Observations on a trace *)

Module Obs.

Definition count (p : event -> bool) (tr : list event) : nat :=
  length (filter p tr).

Definition is_cursor_read (e : event) : bool :=
  match e with ViewerCall CallReadCursor => true | _ => false end.

Definition is_data_fetch (e : event) : bool :=
  match e with ViewerCall CallGetData => true | _ => false end.

Definition is_invoke (e : event) : bool :=
  match e with Invoke _ _ _ _ => true | _ => false end.

Definition is_print (msg : string) (e : event) : bool :=
  match e with Print s => String.eqb s msg | _ => false end.

(** The handler calls of a trace, in order. *)
Definition invocations (tr : list event) : list event := filter is_invoke tr.

End Obs.

(** The state after the frame check of one pass of the loop. *)
Definition refreshed (s : Connect.State) : Connect.State :=
  snd (Connect.refresh_if_changed s).

(** The bindings registered in a state. *)
Definition bindings_of (s : Connect.State) : list Imexamine.KeyBinding :=
  Imexamine.imexam_option_funcs (Connect.exam (Connect.self s)).

(** Every registered key is a single character. *)
Definition single_char_keys (e : Imexamine.t) : Prop :=
  Forall (fun k => String.length k = 1) (Imexamine.get_options e).

(** A cursor event after which the loop goes on: a non-empty key without
    the letter q. *)
Definition keeps_session (o : cursor_outcome) : bool :=
  match o with
  | CursorOk _ _ k => PyStr.truthy k && negb (PyStr.contains "q" k)
  | CursorFail _ => false
  end.

(** What the frame check of one pass adds to the trace. *)
Definition refresh_events (s : Connect.State) : list event :=
  let d := shown (Connect.viewer s) in
  if String.eqb (Connect.current_frame (Connect.self s)) (d_frame d)
  then [ViewerCall CallFrame]
  else [ViewerCall CallFrame; ViewerCall CallGetData; ViewerCall CallGetFilename;
        LogInfo ("Current image " ++ d_filename d)].

(** The pixel buffer held after the frame check of one pass. *)
Definition refreshed_data (s : Connect.State) : PixelBuffer :=
  if String.eqb (Connect.current_frame (Connect.self s))
                (d_frame (shown (Connect.viewer s)))
  then Imexamine._data (Connect.exam (Connect.self s))
  else d_data (shown (Connect.viewer s)).

(** The state after a cursor read that returned: the viewer moves on to the
    next display, the read (and [es]) is added to the trace. *)
Definition after_read (s : Connect.State) (d : display)
    (rest : list (cursor_outcome * display)) (es : list event) : Connect.State :=
  Connect.mkState (Connect.self s) (mkViewer d rest)
    (Connect.trace s ++ ViewerCall CallReadCursor :: es).

(** The state in which [imexam] calls [_run_imexam]: the data and the frame
    identity of the displayed image have been taken from the viewer. *)
Definition image_loaded (s : Connect.State) : Connect.State :=
  let c := Connect.self s in
  let d := shown (Connect.viewer s) in
  Connect.mkState
    (Connect.mk (Connect.window c) (Imexamine.set_data (d_data d) (Connect.exam c))
       (d_frame d) (Connect.logfile c))
    (Connect.viewer s)
    (Connect.trace s ++
     [ViewerCall CallGetFilename; ViewerCall CallGetData; ViewerCall CallFrame]).

(** What [_run_imexam] prints before it looks at the keys. *)
Definition console_header (s : Connect.State) : list event :=
  Print Connect.banner :: Imexamine.print_options (Connect.exam (Connect.self s)).

(** The state in which [_run_imexam] reaches its loop. *)
Definition session_start (s : Connect.State) : Connect.State :=
  Connect.mkState (Connect.self s) (Connect.viewer s)
    (Connect.trace s ++ console_header s ++
     [ViewerCall CallGetFilename;
      LogInfo ("Current image " ++ d_filename (shown (Connect.viewer s)))]).

(** What [imexam] adds to the trace before the loop starts. *)
Definition entry_events (s : Connect.State) : list event :=
  [ViewerCall CallGetFilename; ViewerCall CallGetData; ViewerCall CallFrame] ++
  console_header s ++
  [ViewerCall CallGetFilename;
   LogInfo ("Current image " ++ d_filename (shown (Connect.viewer s)))].

(** Events among which there is no handler call, no "Invalid key" message
    and no cursor read. *)
Definition quiet (es : list event) : Prop :=
  Obs.invocations es = [] /\
  Obs.count (Obs.is_print "Invalid key") es = 0 /\
  Obs.count Obs.is_cursor_read es = 0.

(** The state after a series of [register] calls, each made on the state the
    one before left (a call that fails leaves the registry as it was). *)
Definition after_registers (calls : list Imexamine.user_funcs) (s : Connect.State)
    : Connect.State :=
  fold_left (fun st c => snd (Connect.register c st)) calls s.






(* ================================================================== *)
(** ** A sample session *)

Module Sample.

Definition aper_phot : Imexamine.KeyBinding :=
  Imexamine.mkBinding "a" (PyFunc "aper_phot" 3) "aperture photometry"
    [("radius", PInt 7)] [("radius", PInt 5)].

Definition histogram : Imexamine.KeyBinding :=
  Imexamine.mkBinding "h" (PyFunc "histogram" 3) "histogram"
    [("nbins", PInt 100)] [("nbins", PInt 100)].

Definition buffer1 : PixelBuffer := [[1%float; 2%float]; [3%float; 4%float]].
Definition buffer2 : PixelBuffer := [[5%float; 6%float]; [7%float; 8%float]].

Definition exam0 : Imexamine.t :=
  Imexamine.mk [aper_phot; histogram] [] "imexam_plot.pdf".

Definition frame1 : display := mkDisplay "1" "m51.fits" buffer1.
Definition frame2 : display := mkDisplay "2" "m31.fits" buffer2.
Definition empty_frame : display := mkDisplay "1" "" [].

Definition instance (d : display) : Connect.t :=
  Connect.mk (Connect.mk_ds9 None None 10 true) exam0 (d_frame d) "imexam_log.txt".

(** The user presses a (bound), switches to frame 2, presses z (unbound),
    then q. *)
Definition a_z_q : list (cursor_outcome * display) :=
  [(CursorOk 10%float 20%float "a", frame2);
   (CursorOk 11%float 21%float "z", frame2);
   (CursorOk 12%float 22%float "q", frame2)].

(** The user presses a, then the cursor read fails with [e]; an h would
    follow. *)
Definition a_then_failure (e : exn) : list (cursor_outcome * display) :=
  [(CursorOk 10%float 20%float "a", frame1);
   (CursorFail e, frame1);
   (CursorOk 11%float 21%float "h", frame1)].

(** Two register calls: the first brings the new key p and the key a,
    which is already bound; the second brings p again. *)
Definition first_call : Imexamine.user_funcs :=
  [("p", (PyFunc "photometry_handler" 3, "aperture photometry", None));
   ("a", (PyFunc "my_aper" 3, "my aperture sum", Some [("radius", PInt 3)]))].

Definition second_call : Imexamine.user_funcs :=
  [("p", (PyFunc "psf_fit" 3, "psf photometry", None))].

(** A call the registry refuses: the key has two characters. *)
Definition bad_call : Imexamine.user_funcs :=
  [("zz", (PyFunc "zoom" 3, "zoom", None))].

Definition state (d : display) (script : list (cursor_outcome * display))
    : Connect.State :=
  Connect.mkState (instance d) (mkViewer d script) [].

End Sample.

(* ================================================================== *)
(** ** Logging set-up *)

Module Logging.

(** A call of [set_logging(filename, on, level)].  The function comes from
    the util module, which is not part of connect.py: only the call made on
    it is recorded. *)
Record set_logging_call : Type := mk_call {
  log_filename : string;
  log_on : bool;
  log_level : Z
}.

(** [logging.DEBUG], the default level. *)
Definition DEBUG : Z := 10.

(** [Connect.setlog]: the instance after the call and the call made on
    [set_logging]. *)
Definition setlog (filename : option string) (on : bool) (level : Z) (c : Connect.t)
    : Connect.t * set_logging_call :=
  let c' :=
    if Connect.arg_truthy filename
    then Connect.mk (Connect.window c) (Connect.exam c) (Connect.current_frame c)
           (match filename with Some f => f | None => "" end)
    else c in
  (c', mk_call (Connect.logfile c') on level).

End Logging.

(* ================================================================== *)
(** ** Accounts of a session *)

Module Account.

Definition is_frame_poll (e : event) : bool :=
  match e with ViewerCall CallFrame => true | _ => false end.

Definition is_filename_query (e : event) : bool :=
  match e with ViewerCall CallGetFilename => true | _ => false end.

Definition is_os_access (e : event) : bool :=
  match e with OsAccess _ => true | _ => false end.

(** The handler calls of a trace, without the buffers: handler and
    position, in order. *)
Definition handler_calls (tr : list event) : list (pyobj * coord * coord) :=
  flat_map (fun e => match e with
                     | Invoke h _ cx cy => [(h, cx, cy)]
                     | _ => []
                     end) tr.

(** The key presses of a script that have a binding in [e], as the handler
    and the position of each, in order. *)
Definition bound_presses (e : Imexamine.t) (script : list (cursor_outcome * display))
    : list (pyobj * coord * coord) :=
  flat_map (fun od => match fst od with
                      | CursorOk cx cy k =>
                          match Imexamine.resolve k e with
                          | Some b => [(Imexamine.handler b, cx, cy)]
                          | None => []
                          end
                      | CursorFail _ => []
                      end) script.

Definition is_unbound_press (e : Imexamine.t) (od : cursor_outcome * display) : bool :=
  match fst od with
  | CursorOk _ _ k =>
      match Imexamine.resolve k e with
      | Some _ => false
      | None => true
      end
  | CursorFail _ => false
  end.

(** The number of key presses of a script that have no binding in [e]. *)
Definition unbound_presses (e : Imexamine.t) (script : list (cursor_outcome * display))
    : nat :=
  length (filter (is_unbound_press e) script).

(** How a session ends on an event that does not keep it going. *)
Definition session_result (o : cursor_outcome) : result unit :=
  match o with
  | CursorOk _ _ _ => Ok tt
  | CursorFail KeyError => Ok tt
  | CursorFail e => Raise e
  end.

(** The "Invalid key" messages printed for an event that ends the session:
    one for a KeyError and one for an empty key, none for a key with the
    letter q or for another failure. *)
Definition exit_messages (o : cursor_outcome) : nat :=
  match o with
  | CursorOk _ _ k => if PyStr.contains "q" k then 0 else 1
  | CursorFail KeyError => 1
  | CursorFail _ => 0
  end.

(** The number of passes over [script] that find a frame identity different
    from the cached one: [cur] is the cached identity and [now] the display
    shown when the first pass starts; each event is followed by the display
    the next pass will find. *)
Fixpoint frame_changes (cur : string) (now : display)
    (script : list (cursor_outcome * display)) : nat :=
  match script with
  | [] => 0
  | (_, d) :: t =>
      (if String.eqb cur (d_frame now) then 0 else 1) +
      frame_changes (d_frame now) d t
  end.

End Account.

(** The call made for a press, with the buffer [buf]. *)
Definition call_with (buf : PixelBuffer) (c : pyobj * coord * coord) : event :=
  Invoke (fst (fst c)) buf (snd (fst c)) (snd c).

(** The user presses a twice, with another image loaded into the same frame
    in between, then q. *)
Definition same_frame_reload : list (cursor_outcome * display) :=
  [(CursorOk 10%float 20%float "a", mkDisplay "1" "m31.fits" Sample.buffer2);
   (CursorOk 11%float 21%float "a", mkDisplay "1" "m31.fits" Sample.buffer2);
   (CursorOk 12%float 22%float "q", mkDisplay "1" "m31.fits" Sample.buffer2)].

(** The user presses a after switching to frame 2, presses h there, then q. *)
Definition switch_then_press : list (cursor_outcome * display) :=
  [(CursorOk 10%float 20%float "a", Sample.frame2);
   (CursorOk 11%float 21%float "h", Sample.frame2);
   (CursorOk 12%float 22%float "q", Sample.frame2)].

(* ================================================================== *)
(** ** Strings and lists *)

Lemma mem_In (k : string) (l : list string) :
  PyStr.mem k l = true <-> In k l.
Proof.
  unfold PyStr.mem. rewrite existsb_exists. split.
  - intros [y [Hy He]]. apply String.eqb_eq in He. now subst.
  - intros H. exists k. split; [assumption | apply String.eqb_refl].
Qed.

Lemma contains_q_single (k : string) :
  String.length k = 1 -> k <> "q" -> PyStr.contains "q" k = false.
Proof.
  destruct k as [|c [|c' t]]; cbn [String.length]; try discriminate.
  intros _ Hne. cbn [PyStr.contains String.prefix].
  destruct (ascii_dec "q"%char c) as [<-|Hc]; [now elim Hne | reflexivity].
Qed.

Lemma single_truthy (k : string) : String.length k = 1 -> PyStr.truthy k = true.
Proof. destruct k; simpl; [discriminate | reflexivity]. Qed.

Lemma count_app (p : event -> bool) (a b : list event) :
  Obs.count p (a ++ b) = Obs.count p a + Obs.count p b.
Proof. unfold Obs.count. now rewrite filter_app, length_app. Qed.

Lemma invocations_app (a b : list event) :
  Obs.invocations (a ++ b) = Obs.invocations a ++ Obs.invocations b.
Proof. apply filter_app. Qed.

(* ================================================================== *)
(** ** Running the monad *)

Ltac unfold_session :=
  unfold Connect.refresh_if_changed, Connect.read_event, Connect.classify,
    Connect.exam_do_option, Connect.exam_set_data, Connect.exam_get_options,
    Connect.exam_print_options, Connect.frame, Connect.get_data,
    Connect.get_data_filename, Connect.readcursor, Connect.window_frame,
    Connect.window_get_filename, Connect.window_get_data,
    Connect.window_readcursor, Connect.try_except_KeyError,
    Connect.print, Connect.warnings_warn, Connect.logging_info,
    Connect.read_local, Connect.head_item,
    Connect.set_exam, Connect.set_current_frame, Connect.get_self,
    Connect.emit, Connect.emit_all, Connect.raise, Connect.ret, Connect.bind.

Ltac tidy_trace := rewrite <- ?app_assoc; cbn [app].

(* ================================================================== *)
(** ** The frame check *)

Lemma refresh_same (s : Connect.State) :
  Connect.current_frame (Connect.self s) = d_frame (shown (Connect.viewer s)) ->
  Connect.refresh_if_changed s =
  (Ok tt, Connect.mkState (Connect.self s) (Connect.viewer s)
            (Connect.trace s ++ [ViewerCall CallFrame])).
Proof.
  intros H. unfold_session. cbn.
  rewrite H, String.eqb_refl. reflexivity.
Qed.

Lemma refresh_changed (s : Connect.State) :
  Connect.current_frame (Connect.self s) <> d_frame (shown (Connect.viewer s)) ->
  Connect.refresh_if_changed s =
  (Ok tt,
   Connect.mkState
     (Connect.mk (Connect.window (Connect.self s))
        (Imexamine.set_data (d_data (shown (Connect.viewer s)))
           (Connect.exam (Connect.self s)))
        (d_frame (shown (Connect.viewer s)))
        (Connect.logfile (Connect.self s)))
     (Connect.viewer s)
     (Connect.trace s ++
      [ViewerCall CallFrame; ViewerCall CallGetData; ViewerCall CallGetFilename;
       LogInfo ("Current image " ++ d_filename (shown (Connect.viewer s)))])).
Proof.
  intros H. apply String.eqb_neq in H.
  unfold_session. cbn.
  rewrite H. cbn. tidy_trace. reflexivity.
Qed.

Lemma refresh_total (s : Connect.State) :
  Connect.refresh_if_changed s = (Ok tt, refreshed s).
Proof.
  unfold refreshed.
  destruct (string_dec (Connect.current_frame (Connect.self s))
                       (d_frame (shown (Connect.viewer s)))) as [H|H].
  - now rewrite (refresh_same s H).
  - now rewrite (refresh_changed s H).
Qed.

Lemma refreshed_viewer (s : Connect.State) :
  Connect.viewer (refreshed s) = Connect.viewer s.
Proof.
  unfold refreshed.
  destruct (string_dec (Connect.current_frame (Connect.self s))
                       (d_frame (shown (Connect.viewer s)))) as [H|H].
  - now rewrite (refresh_same s H).
  - now rewrite (refresh_changed s H).
Qed.

Lemma refreshed_bindings (s : Connect.State) :
  bindings_of (refreshed s) = bindings_of s.
Proof.
  unfold refreshed, bindings_of.
  destruct (string_dec (Connect.current_frame (Connect.self s))
                       (d_frame (shown (Connect.viewer s)))) as [H|H].
  - now rewrite (refresh_same s H).
  - now rewrite (refresh_changed s H).
Qed.

Lemma refreshed_frame (s : Connect.State) :
  Connect.current_frame (Connect.self (refreshed s)) =
  d_frame (shown (Connect.viewer s)).
Proof.
  unfold refreshed.
  destruct (string_dec (Connect.current_frame (Connect.self s))
                       (d_frame (shown (Connect.viewer s)))) as [H|H].
  - now rewrite (refresh_same s H).
  - now rewrite (refresh_changed s H).
Qed.

Lemma refreshed_trace (s : Connect.State) :
  Connect.trace (refreshed s) = Connect.trace s ++ refresh_events s.
Proof.
  unfold refreshed, refresh_events.
  destruct (string_dec (Connect.current_frame (Connect.self s))
                       (d_frame (shown (Connect.viewer s)))) as [H|H].
  - rewrite (refresh_same s H). rewrite H, String.eqb_refl. reflexivity.
  - rewrite (refresh_changed s H). apply String.eqb_neq in H. now rewrite H.
Qed.

Lemma refreshed_buffer (s : Connect.State) :
  Imexamine._data (Connect.exam (Connect.self (refreshed s))) = refreshed_data s.
Proof.
  unfold refreshed, refreshed_data.
  destruct (string_dec (Connect.current_frame (Connect.self s))
                       (d_frame (shown (Connect.viewer s)))) as [H|H].
  - rewrite (refresh_same s H). rewrite H, String.eqb_refl. reflexivity.
  - rewrite (refresh_changed s H). apply String.eqb_neq in H. now rewrite H.
Qed.

Lemma refresh_events_quiet (s : Connect.State) : quiet (refresh_events s).
Proof.
  unfold refresh_events, quiet.
  destruct (String.eqb _ _); repeat split; reflexivity.
Qed.

(* ================================================================== *)
(** ** The cursor read and the classification of the key *)

Lemma read_ok l s cx cy k d rest :
  pending (Connect.viewer s) = (CursorOk cx cy k, d) :: rest ->
  Connect.read_event l s = (Ok (Some cx, Some cy, k), after_read s d rest []).
Proof.
  intros H. unfold_session. rewrite H. reflexivity.
Qed.

Lemma read_KeyError l s d rest :
  pending (Connect.viewer s) = (CursorFail KeyError, d) :: rest ->
  Connect.read_event l s =
  (Ok (Connect.x l, Connect.y l, "q"), after_read s d rest [Print "Invalid key"]).
Proof.
  intros H. unfold_session. rewrite H. cbn. unfold after_read.
  tidy_trace. reflexivity.
Qed.

Lemma read_other_error l s e d rest :
  e <> KeyError ->
  pending (Connect.viewer s) = (CursorFail e, d) :: rest ->
  Connect.read_event l s = (Raise e, after_read s d rest []).
Proof.
  intros Hne H. unfold_session. rewrite H.
  destruct e; try reflexivity. now elim Hne.
Qed.

Lemma read_blocked l s :
  pending (Connect.viewer s) = [] ->
  Connect.read_event l s =
  (Blocked, Connect.mkState (Connect.self s) (Connect.viewer s)
              (Connect.trace s ++ [ViewerCall CallReadCursor])).
Proof.
  intros H. unfold_session. rewrite H. reflexivity.
Qed.

Lemma classify_invalid keys ex ey k s :
  PyStr.mem k keys = false -> PyStr.contains "q" k = false ->
  Connect.classify keys (ex, ey, k) s =
  (Ok (Connect.mkLocals ex ey (Some k)),
   Connect.mkState (Connect.self s) (Connect.viewer s)
     (Connect.trace s ++ [Print "Invalid key"])).
Proof.
  intros Hm Hq. unfold_session. rewrite Hm, Hq. reflexivity.
Qed.

Lemma classify_quit keys ex ey k s :
  PyStr.contains "q" k = true ->
  Connect.classify keys (ex, ey, k) s = (Ok (Connect.mkLocals ex ey None), s).
Proof.
  intros Hq. unfold_session. rewrite Hq.
  rewrite andb_false_r. reflexivity.
Qed.

Lemma classify_dispatch keys cx cy k b s :
  PyStr.mem k keys = true -> PyStr.contains "q" k = false ->
  Imexamine.resolve k (Connect.exam (Connect.self s)) = Some b ->
  Connect.classify keys (Some cx, Some cy, k) s =
  (Ok (Connect.mkLocals (Some cx) (Some cy) (Some k)),
   Connect.mkState (Connect.self s) (Connect.viewer s)
     (Connect.trace s ++
      [Invoke (Imexamine.handler b)
         (Imexamine._data (Connect.exam (Connect.self s))) cx cy])).
Proof.
  intros Hm Hq Hr. unfold_session. rewrite Hm, Hq. cbn.
  unfold Imexamine.do_option. rewrite Hr. reflexivity.
Qed.

Lemma resolve_of_mem (k : string) (e : Imexamine.t) :
  PyStr.mem k (Imexamine.get_options e) = true ->
  exists b, Imexamine.resolve k e = Some b /\ Imexamine.key b = k.
Proof.
  unfold Imexamine.get_options, Imexamine.resolve.
  induction (Imexamine.imexam_option_funcs e) as [|b r IH]; cbn.
  - discriminate.
  - rewrite (String.eqb_sym k).
    destruct (String.eqb_spec (Imexamine.key b) k) as [E|E].
    + intros _. now exists b.
    + cbn. exact IH.
Qed.

Lemma mem_of_resolve (k : string) (e : Imexamine.t) (b : Imexamine.KeyBinding) :
  Imexamine.resolve k e = Some b ->
  PyStr.mem k (Imexamine.get_options e) = true.
Proof.
  unfold Imexamine.get_options, Imexamine.resolve.
  induction (Imexamine.imexam_option_funcs e) as [|b' r IH]; cbn.
  - discriminate.
  - rewrite (String.eqb_sym k).
    destruct (String.eqb_spec (Imexamine.key b') k) as [E|E].
    + reflexivity.
    + cbn. exact IH.
Qed.

Lemma resolve_none_mem (k : string) (e : Imexamine.t) :
  Imexamine.resolve k e = None ->
  PyStr.mem k (Imexamine.get_options e) = false.
Proof.
  intros H. destruct (PyStr.mem k (Imexamine.get_options e)) eqn:E; [|reflexivity].
  destruct (resolve_of_mem k e E) as [b [Hb _]]. congruence.
Qed.

(* ================================================================== *)
(** ** One pass of the loop *)

Lemma loop_body_unfold keys l s :
  Connect.loop_body keys l s =
  match Connect.read_event l (refreshed s) with
  | (Ok ev, s') => Connect.classify keys ev s'
  | (Raise e, s') => (Raise e, s')
  | (Blocked, s') => (Blocked, s')
  | (OutOfFuel, s') => (OutOfFuel, s')
  end.
Proof.
  unfold Connect.loop_body, Connect.bind at 1 2.
  rewrite refresh_total. reflexivity.
Qed.

Lemma while_step fuel keys l s :
  Connect.key_truthy (Connect.current_key l) = true ->
  Connect.while_current_key (S fuel) keys l s =
  match Connect.loop_body keys l s with
  | (Ok l', s') => Connect.while_current_key fuel keys l' s'
  | (Raise e, s') => (Raise e, s')
  | (Blocked, s') => (Blocked, s')
  | (OutOfFuel, s') => (OutOfFuel, s')
  end.
Proof.
  intros H. cbn [Connect.while_current_key]. rewrite H. reflexivity.
Qed.

Lemma while_done fuel keys l s :
  Connect.key_truthy (Connect.current_key l) = false ->
  Connect.while_current_key fuel keys l s = (Ok tt, s).
Proof.
  intros H. destruct fuel; cbn [Connect.while_current_key]; now rewrite H.
Qed.

Lemma after_read_bindings s d rest es :
  bindings_of (after_read (refreshed s) d rest es) = bindings_of s.
Proof. unfold after_read, bindings_of. cbn. apply refreshed_bindings. Qed.

Lemma after_read_trace s d rest es :
  Connect.trace (after_read (refreshed s) d rest es) =
  Connect.trace s ++ refresh_events s ++ ViewerCall CallReadCursor :: es.
Proof.
  unfold after_read. cbn. rewrite refreshed_trace. now rewrite <- app_assoc.
Qed.

Lemma resolve_by_bindings k s s' :
  bindings_of s' = bindings_of s ->
  Imexamine.resolve k (Connect.exam (Connect.self s')) =
  Imexamine.resolve k (Connect.exam (Connect.self s)).
Proof. unfold bindings_of, Imexamine.resolve. now intros ->. Qed.

Lemma options_by_bindings s s' :
  bindings_of s' = bindings_of s ->
  Imexamine.get_options (Connect.exam (Connect.self s')) =
  Imexamine.get_options (Connect.exam (Connect.self s)).
Proof. unfold bindings_of, Imexamine.get_options. now intros ->. Qed.

Lemma pass_dispatch keys l s cx cy k d rest b :
  pending (Connect.viewer s) = (CursorOk cx cy k, d) :: rest ->
  PyStr.mem k keys = true -> PyStr.contains "q" k = false ->
  Imexamine.resolve k (Connect.exam (Connect.self s)) = Some b ->
  Connect.loop_body keys l s =
  (Ok (Connect.mkLocals (Some cx) (Some cy) (Some k)),
   after_read (refreshed s) d rest
     [Invoke (Imexamine.handler b) (refreshed_data s) cx cy]).
Proof.
  intros Hp Hm Hq Hr. rewrite loop_body_unfold.
  rewrite (read_ok l (refreshed s) cx cy k d rest)
    by (now rewrite refreshed_viewer).
  rewrite (classify_dispatch keys cx cy k b); try assumption.
  - unfold after_read. cbn. rewrite refreshed_buffer. tidy_trace. reflexivity.
  - unfold after_read. cbn.
    rewrite <- Hr. apply resolve_by_bindings. apply refreshed_bindings.
Qed.

Lemma pass_invalid keys l s cx cy k d rest :
  pending (Connect.viewer s) = (CursorOk cx cy k, d) :: rest ->
  PyStr.mem k keys = false -> PyStr.contains "q" k = false ->
  Connect.loop_body keys l s =
  (Ok (Connect.mkLocals (Some cx) (Some cy) (Some k)),
   after_read (refreshed s) d rest [Print "Invalid key"]).
Proof.
  intros Hp Hm Hq. rewrite loop_body_unfold.
  rewrite (read_ok l (refreshed s) cx cy k d rest)
    by (now rewrite refreshed_viewer).
  rewrite classify_invalid by assumption.
  unfold after_read. cbn. tidy_trace. reflexivity.
Qed.

Lemma pass_quit keys l s cx cy k d rest :
  pending (Connect.viewer s) = (CursorOk cx cy k, d) :: rest ->
  PyStr.contains "q" k = true ->
  Connect.loop_body keys l s =
  (Ok (Connect.mkLocals (Some cx) (Some cy) None), after_read (refreshed s) d rest []).
Proof.
  intros Hp Hq. rewrite loop_body_unfold.
  rewrite (read_ok l (refreshed s) cx cy k d rest)
    by (now rewrite refreshed_viewer).
  now rewrite classify_quit.
Qed.

Lemma pass_KeyError keys l s d rest :
  pending (Connect.viewer s) = (CursorFail KeyError, d) :: rest ->
  Connect.loop_body keys l s =
  (Ok (Connect.mkLocals (Connect.x l) (Connect.y l) None),
   after_read (refreshed s) d rest [Print "Invalid key"]).
Proof.
  intros Hp. rewrite loop_body_unfold.
  rewrite (read_KeyError l (refreshed s) d rest)
    by (now rewrite refreshed_viewer).
  now rewrite classify_quit.
Qed.

Lemma pass_other_error keys l s e d rest :
  e <> KeyError ->
  pending (Connect.viewer s) = (CursorFail e, d) :: rest ->
  Connect.loop_body keys l s = (Raise e, after_read (refreshed s) d rest []).
Proof.
  intros Hne Hp. rewrite loop_body_unfold.
  now rewrite (read_other_error l (refreshed s) e d rest)
    by (assumption || now rewrite refreshed_viewer).
Qed.

(* ================================================================== *)
(** ** Entering the session *)

Lemma imexam_no_image fuel s :
  PyStr.truthy (d_filename (shown (Connect.viewer s))) = false ->
  Connect.imexam fuel s =
  (Ok tt, Connect.mkState (Connect.self s) (Connect.viewer s)
            (Connect.trace s ++
             [ViewerCall CallGetFilename; Warn "No image loaded in viewer"])).
Proof.
  intros H. unfold Connect.imexam. unfold_session. cbn. rewrite H. cbn.
  tidy_trace. reflexivity.
Qed.

Lemma imexam_enter fuel s :
  PyStr.truthy (d_filename (shown (Connect.viewer s))) = true ->
  Connect.imexam fuel s = Connect._run_imexam fuel (image_loaded s).
Proof.
  intros H. unfold Connect.imexam. unfold_session. cbn. rewrite H. cbn.
  unfold image_loaded. tidy_trace. reflexivity.
Qed.

Lemma run_imexam_enter fuel s k0 ks :
  Imexamine.get_options (Connect.exam (Connect.self s)) = k0 :: ks ->
  Connect._run_imexam fuel s =
  Connect.while_current_key fuel (k0 :: ks)
    (Connect.mkLocals None None (Some k0)) (session_start s).
Proof.
  intros H. unfold Connect._run_imexam. unfold_session. cbn. rewrite H. cbn.
  unfold session_start, console_header. tidy_trace. reflexivity.
Qed.

Lemma run_imexam_no_keys fuel s :
  Imexamine.get_options (Connect.exam (Connect.self s)) = [] ->
  Connect._run_imexam fuel s =
  (Raise IndexError,
   Connect.mkState (Connect.self s) (Connect.viewer s)
     (Connect.trace s ++ console_header s)).
Proof.
  intros H. unfold Connect._run_imexam. unfold_session. cbn. rewrite H. cbn.
  unfold console_header. tidy_trace. reflexivity.
Qed.

(* ================================================================== *)
(** ** The session entry point without an image *)

(** C1 (as the code has it): when the viewer reports an empty filename,
    [imexam] issues the warning "No image loaded in viewer" and returns
    normally; it raises nothing, does not enter the loop (no cursor read, no
    handler call) and leaves the instance and the viewer as they were. *)
Theorem imexam_without_image_warns_and_returns (fuel : nat) (s : Connect.State) :
  PyStr.truthy (d_filename (shown (Connect.viewer s))) = false ->
  exists s',
    Connect.imexam fuel s = (Ok tt, s') /\
    Connect.self s' = Connect.self s /\
    Connect.viewer s' = Connect.viewer s /\
    Connect.trace s' =
      Connect.trace s ++ [ViewerCall CallGetFilename; Warn "No image loaded in viewer"] /\
    Obs.count Obs.is_cursor_read (Connect.trace s') =
      Obs.count Obs.is_cursor_read (Connect.trace s) /\
    Obs.invocations (Connect.trace s') = Obs.invocations (Connect.trace s).
Proof.
  intros H. eexists. split; [apply imexam_no_image; exact H|].
  cbn [Connect.self Connect.viewer Connect.trace]. repeat split.
  - rewrite count_app. cbn. lia.
  - rewrite invocations_app. cbn. apply app_nil_r.
Qed.

Lemma imexam_without_image_warns_and_returns_witness :
  exists s',
    Connect.imexam 5 (Sample.state Sample.empty_frame Sample.a_z_q) = (Ok tt, s') /\
    Connect.self s' = Connect.self (Sample.state Sample.empty_frame Sample.a_z_q) /\
    Connect.viewer s' = Connect.viewer (Sample.state Sample.empty_frame Sample.a_z_q) /\
    Connect.trace s' =
      Connect.trace (Sample.state Sample.empty_frame Sample.a_z_q) ++
      [ViewerCall CallGetFilename; Warn "No image loaded in viewer"] /\
    Obs.count Obs.is_cursor_read (Connect.trace s') =
      Obs.count Obs.is_cursor_read
        (Connect.trace (Sample.state Sample.empty_frame Sample.a_z_q)) /\
    Obs.invocations (Connect.trace s') =
      Obs.invocations (Connect.trace (Sample.state Sample.empty_frame Sample.a_z_q)).
Proof.
  apply (imexam_without_image_warns_and_returns 5
           (Sample.state Sample.empty_frame Sample.a_z_q)).
  reflexivity.
Defined.

(** C1 (as the spec words it) fails: with an empty filename the entry point
    does not fail with any exception. *)
Lemma imexam_without_image_does_not_raise :
  PyStr.truthy
    (d_filename (shown (Connect.viewer (Sample.state Sample.empty_frame Sample.a_z_q))))
  = false /\
  forall e : exn,
    fst (Connect.imexam 5 (Sample.state Sample.empty_frame Sample.a_z_q)) <> Raise e.
Proof.
  split; [reflexivity|]. intros e. vm_compute. discriminate.
Qed.

(* ================================================================== *)
(** ** A bound key, an unbound key, then quit *)

Lemma image_loaded_bindings s : bindings_of (image_loaded s) = bindings_of s.
Proof. reflexivity. Qed.

Lemma session_start_bindings s : bindings_of (session_start s) = bindings_of s.
Proof. reflexivity. Qed.

Lemma refreshed_data_same s :
  Connect.current_frame (Connect.self s) = d_frame (shown (Connect.viewer s)) ->
  refreshed_data s = Imexamine._data (Connect.exam (Connect.self s)).
Proof. intros H. unfold refreshed_data. now rewrite H, String.eqb_refl. Qed.

Lemma print_options_quiet (e : Imexamine.t) : quiet (Imexamine.print_options e).
Proof.
  unfold Imexamine.print_options, quiet.
  induction (Imexamine.imexam_option_funcs e) as [|b r IH];
    [repeat split; reflexivity | exact IH].
Qed.

Lemma entry_events_quiet (s : Connect.State) : quiet (entry_events s).
Proof.
  destruct (print_options_quiet (Connect.exam (Connect.self s))) as [I [P R]].
  unfold entry_events, console_header, quiet.
  change (Print Connect.banner :: ?l) with ([Print Connect.banner] ++ l).
  rewrite !invocations_app, !count_app, I, P, R. repeat split; reflexivity.
Qed.

Lemma entry_trace (s : Connect.State) :
  Connect.trace (session_start (image_loaded s)) = Connect.trace s ++ entry_events s.
Proof.
  unfold session_start, image_loaded, entry_events, console_header.
  cbn [Connect.trace Connect.self Connect.viewer Connect.exam].
  unfold Imexamine.print_options, Imexamine.set_data.
  cbn [Imexamine.imexam_option_funcs].
  now rewrite <- !app_assoc.
Qed.

(** What a pass adds to the counts, when its frame check is [r] and the
    events after the cursor read are [es]. *)
Lemma pass_counts (tr r es : list event) :
  quiet r ->
  Obs.invocations (tr ++ r ++ ViewerCall CallReadCursor :: es) =
    Obs.invocations tr ++ Obs.invocations es /\
  Obs.count (Obs.is_print "Invalid key") (tr ++ r ++ ViewerCall CallReadCursor :: es) =
    Obs.count (Obs.is_print "Invalid key") tr + Obs.count (Obs.is_print "Invalid key") es /\
  Obs.count Obs.is_cursor_read (tr ++ r ++ ViewerCall CallReadCursor :: es) =
    Obs.count Obs.is_cursor_read tr + 1 + Obs.count Obs.is_cursor_read es.
Proof.
  intros [I [P R]].
  change (ViewerCall CallReadCursor :: es) with ([ViewerCall CallReadCursor] ++ es).
  rewrite !invocations_app, !count_app, I, P, R. cbn. repeat split; lia.
Qed.

(** C2: with a valid image and the cursor events [a, u, q] (a bound and not
    the quit key, u a single unbound character other than q), the session
    returns normally having called exactly one handler, the one bound to a,
    with the pixel buffer of the displayed image and the position of that
    event; it has printed "Invalid key" exactly once, read the cursor three
    times, and left the rest of the user's actions unread. *)
Theorem session_bound_unbound_quit
    (s : Connect.State) (fuel : nat) (a u : string) (b : Imexamine.KeyBinding)
    (xa ya xu yu xq yq : coord) (d1 d2 d3 : display)
    (rest : list (cursor_outcome * display)) :
  PyStr.truthy (d_filename (shown (Connect.viewer s))) = true ->
  single_char_keys (Connect.exam (Connect.self s)) ->
  Imexamine.resolve a (Connect.exam (Connect.self s)) = Some b ->
  a <> "q" ->
  String.length u = 1 -> u <> "q" ->
  Imexamine.resolve u (Connect.exam (Connect.self s)) = None ->
  pending (Connect.viewer s) =
    (CursorOk xa ya a, d1) :: (CursorOk xu yu u, d2) :: (CursorOk xq yq "q", d3) :: rest ->
  3 <= fuel ->
  exists s',
    Connect.imexam fuel s = (Ok tt, s') /\
    Obs.invocations (Connect.trace s') =
      Obs.invocations (Connect.trace s) ++
      [Invoke (Imexamine.handler b) (d_data (shown (Connect.viewer s))) xa ya] /\
    Obs.count (Obs.is_print "Invalid key") (Connect.trace s') =
      Obs.count (Obs.is_print "Invalid key") (Connect.trace s) + 1 /\
    Obs.count Obs.is_cursor_read (Connect.trace s') =
      Obs.count Obs.is_cursor_read (Connect.trace s) + 3 /\
    pending (Connect.viewer s') = rest.
Proof.
  intros Himg Hkeys Ha Haq Hu Huq Hunb Hp Hfuel.
  destruct fuel as [|[|[|fuel]]]; try lia. clear Hfuel.
  pose proof (mem_of_resolve a _ b Ha) as Hma.
  pose proof (resolve_none_mem u _ Hunb) as Hmu.
  assert (Hla : String.length a = 1).
  { unfold single_char_keys in Hkeys. rewrite Forall_forall in Hkeys.
    apply Hkeys. now apply mem_In. }
  destruct (Imexamine.get_options (Connect.exam (Connect.self s)))
    as [|k0 ks] eqn:Hopts; [discriminate|].
  assert (Hk0 : PyStr.truthy k0 = true).
  { apply single_truthy. unfold single_char_keys in Hkeys.
    rewrite Hopts in Hkeys. now inversion Hkeys. }
  rewrite (imexam_enter _ _ Himg).
  rewrite (run_imexam_enter _ (image_loaded s) k0 ks) by exact Hopts.
  set (s1 := session_start (image_loaded s)).
  (* first pass: a is dispatched *)
  rewrite while_step by exact Hk0.
  rewrite (pass_dispatch _ _ s1 xa ya a d1 _ b Hp Hma
             (contains_q_single a Hla Haq) Ha).
  set (s2 := after_read (refreshed s1) d1 _ _).
  (* second pass: u is invalid *)
  rewrite while_step by exact (single_truthy a Hla).
  rewrite (pass_invalid _ _ s2 xu yu u d2 _ eq_refl Hmu
             (contains_q_single u Hu Huq)).
  set (s3 := after_read (refreshed s2) d2 _ _).
  (* third pass: q ends the loop *)
  rewrite while_step by exact (single_truthy u Hu).
  rewrite (pass_quit _ _ s3 xq yq "q" d3 rest eq_refl eq_refl).
  rewrite while_done by reflexivity.
  eexists. split; [reflexivity|].
  assert (Hd : refreshed_data s1 = d_data (shown (Connect.viewer s)))
    by (now rewrite refreshed_data_same).
  rewrite after_read_trace.
  destruct (pass_counts (Connect.trace s3) _ [] (refresh_events_quiet s3))
    as [I3 [P3 R3]]. rewrite I3, P3, R3. clear I3 P3 R3.
  subst s3. rewrite after_read_trace.
  destruct (pass_counts (Connect.trace s2) _ [Print "Invalid key"]
              (refresh_events_quiet s2)) as [I2 [P2 R2]].
  rewrite I2, P2, R2. clear I2 P2 R2.
  subst s2. rewrite after_read_trace.
  destruct (pass_counts (Connect.trace s1) _
              [Invoke (Imexamine.handler b) (refreshed_data s1) xa ya]
              (refresh_events_quiet s1)) as [I1 [P1 R1]].
  rewrite I1, P1, R1. clear I1 P1 R1.
  subst s1. rewrite entry_trace, Hd.
  destruct (entry_events_quiet s) as [I0 [P0 R0]].
  rewrite invocations_app, !count_app, I0, P0, R0.
  cbn. rewrite !app_nil_r. repeat split; lia.
Qed.

Lemma session_bound_unbound_quit_witness :
  exists s',
    Connect.imexam 3 (Sample.state Sample.frame1 Sample.a_z_q) = (Ok tt, s') /\
    Obs.invocations (Connect.trace s') =
      [Invoke (PyFunc "aper_phot" 3) Sample.buffer1 10%float 20%float] /\
    Obs.count (Obs.is_print "Invalid key") (Connect.trace s') = 1 /\
    Obs.count Obs.is_cursor_read (Connect.trace s') = 3 /\
    pending (Connect.viewer s') = [].
Proof.
  apply (session_bound_unbound_quit (Sample.state Sample.frame1 Sample.a_z_q) 3
           "a" "z" Sample.aper_phot
           10%float 20%float 11%float 21%float 12%float 22%float
           Sample.frame2 Sample.frame2 Sample.frame2 []).
  - reflexivity.
  - repeat constructor.
  - reflexivity.
  - discriminate.
  - reflexivity.
  - discriminate.
  - reflexivity.
  - reflexivity.
  - lia.
Defined.

(* ================================================================== *)
(** ** Frame-change detection in every pass *)

Lemma read_event_keeps_self l s :
  Connect.self (snd (Connect.read_event l s)) = Connect.self s /\
  Obs.count Obs.is_data_fetch (Connect.trace (snd (Connect.read_event l s))) =
    Obs.count Obs.is_data_fetch (Connect.trace s).
Proof.
  unfold_session.
  destruct (pending (Connect.viewer s)) as [|[[cx cy k|e] d] rest];
    cbn [snd Connect.self Connect.trace].
  - rewrite count_app. cbn. split; [reflexivity | lia].
  - rewrite count_app. cbn. split; [reflexivity | lia].
  - destruct e; cbn [snd Connect.self Connect.trace];
      rewrite ?count_app; cbn; split; try reflexivity; lia.
Qed.

Lemma classify_keeps_self keys ev s :
  Connect.self (snd (Connect.classify keys ev s)) = Connect.self s /\
  Obs.count Obs.is_data_fetch (Connect.trace (snd (Connect.classify keys ev s))) =
    Obs.count Obs.is_data_fetch (Connect.trace s).
Proof.
  destruct ev as [[ex ey] k]. unfold_session.
  destruct (negb (PyStr.mem k keys) && negb (PyStr.contains "q" k)).
  - cbn [snd Connect.self Connect.trace]. rewrite count_app. cbn.
    split; [reflexivity | lia].
  - destruct (PyStr.contains "q" k); [split; reflexivity|].
    destruct ex as [cx|]; [|split; reflexivity].
    destruct ey as [cy|]; [|split; reflexivity].
    unfold Imexamine.do_option.
    destruct (Imexamine.resolve k (Connect.exam (Connect.self s)));
      cbn [snd Connect.self Connect.trace]; rewrite ?count_app; cbn;
      split; try reflexivity; lia.
Qed.

Lemma loop_body_after_refresh keys l s :
  Connect.self (snd (Connect.loop_body keys l s)) = Connect.self (refreshed s) /\
  Obs.count Obs.is_data_fetch (Connect.trace (snd (Connect.loop_body keys l s))) =
    Obs.count Obs.is_data_fetch (Connect.trace (refreshed s)).
Proof.
  rewrite loop_body_unfold.
  destruct (read_event_keeps_self l (refreshed s)) as [Hs Hc].
  destruct (Connect.read_event l (refreshed s)) as [[ev|e| |] s1];
    cbn [snd] in *; try (split; assumption).
  destruct (classify_keeps_self keys ev s1) as [Hs' Hc'].
  split; congruence.
Qed.

(** C3: in every pass of the loop, whatever the cursor read then does: if
    the viewer's frame identity equals the cached [current_frame], the pass
    fetches no pixel data and leaves [current_frame] and the cached pixel
    buffer as they were; if it differs, the pass fetches the pixel data
    exactly once, the cached buffer becomes the viewer's buffer and
    [current_frame] the new identity. *)
Theorem pass_refreshes_iff_frame_changed
    (keys : list string) (l : Connect.locals) (s : Connect.State) :
  let s' := snd (Connect.loop_body keys l s) in
  let cached := Connect.current_frame (Connect.self s) in
  let seen := shown (Connect.viewer s) in
  (cached = d_frame seen ->
     Obs.count Obs.is_data_fetch (Connect.trace s') =
       Obs.count Obs.is_data_fetch (Connect.trace s) /\
     Connect.current_frame (Connect.self s') = cached /\
     Imexamine._data (Connect.exam (Connect.self s')) =
       Imexamine._data (Connect.exam (Connect.self s)))
  /\
  (cached <> d_frame seen ->
     Obs.count Obs.is_data_fetch (Connect.trace s') =
       Obs.count Obs.is_data_fetch (Connect.trace s) + 1 /\
     Connect.current_frame (Connect.self s') = d_frame seen /\
     Imexamine._data (Connect.exam (Connect.self s')) = d_data seen).
Proof.
  cbv zeta.
  destruct (loop_body_after_refresh keys l s) as [Hs Hc].
  rewrite Hs, Hc. unfold refreshed. split; intros H.
  - rewrite (refresh_same s H). cbn [snd Connect.self Connect.trace].
    rewrite count_app. cbn. repeat split; lia.
  - rewrite (refresh_changed s H).
    cbn [snd Connect.self Connect.trace Connect.current_frame Connect.exam].
    rewrite count_app. cbn. repeat split; lia.
Qed.

(* ================================================================== *)
(** ** Running through events that keep the session going *)

Lemma keep_going (prefix : list (cursor_outcome * display)) :
  forall (fuel : nat) (l : Connect.locals) (s : Connect.State)
         (rest : list (cursor_outcome * display)),
    Forall (fun od => keeps_session (fst od) = true) prefix ->
    pending (Connect.viewer s) = prefix ++ rest ->
    Connect.key_truthy (Connect.current_key l) = true ->
    exists l' s',
      Connect.while_current_key (length prefix + fuel)
        (Imexamine.get_options (Connect.exam (Connect.self s))) l s =
      Connect.while_current_key fuel
        (Imexamine.get_options (Connect.exam (Connect.self s))) l' s' /\
      pending (Connect.viewer s') = rest /\
      Connect.key_truthy (Connect.current_key l') = true /\
      bindings_of s' = bindings_of s /\
      Obs.count Obs.is_cursor_read (Connect.trace s') =
        Obs.count Obs.is_cursor_read (Connect.trace s) + length prefix.
Proof.
  induction prefix as [|[o d] prefix IH]; intros fuel l s rest Halive Hp Hl.
  - exists l, s. cbn. repeat split; try assumption. lia.
  - inversion Halive as [|? ? Ho Hrest]; subst.
    destruct o as [cx cy k|e]; [|discriminate].
    cbn in Ho. apply andb_true_iff in Ho. destruct Ho as [Hk Hq].
    apply negb_true_iff in Hq.
    cbn [length Nat.add]. rewrite while_step by exact Hl.
    set (keys := Imexamine.get_options (Connect.exam (Connect.self s))).
    assert (Hstep : exists es,
              Connect.loop_body keys l s =
              (Ok (Connect.mkLocals (Some cx) (Some cy) (Some k)),
               after_read (refreshed s) d (prefix ++ rest) es) /\
              Obs.count Obs.is_cursor_read es = 0).
    { destruct (PyStr.mem k keys) eqn:Hm.
      - destruct (resolve_of_mem k _ Hm) as [b [Hb _]].
        eexists. split; [apply (pass_dispatch keys l s cx cy k d _ b Hp Hm Hq Hb)|].
        reflexivity.
      - eexists. split; [apply (pass_invalid keys l s cx cy k d _ Hp Hm Hq)|].
        reflexivity. }
    destruct Hstep as [es [Hbody Hes]]. rewrite Hbody.
    set (s1 := after_read (refreshed s) d (prefix ++ rest) es).
    assert (Hb1 : bindings_of s1 = bindings_of s) by apply after_read_bindings.
    destruct (IH fuel (Connect.mkLocals (Some cx) (Some cy) (Some k)) s1 rest
                Hrest eq_refl Hk) as [l' [s' [Hrun [Hp' [Hl' [Hb' Hc']]]]]].
    rewrite (options_by_bindings s s1 Hb1) in Hrun.
    exists l', s'. split; [exact Hrun|].
    repeat split; try assumption.
    + congruence.
    + rewrite Hc'. subst s1. rewrite after_read_trace.
      destruct (pass_counts (Connect.trace s) _ es (refresh_events_quiet s))
        as [_ [_ R]].
      rewrite R, Hes. lia.
Qed.

(** From the entry point to the pass in which the cursor read fails. *)
Lemma session_reaches (s : Connect.State) (fuel : nat)
    (prefix : list (cursor_outcome * display)) (o : cursor_outcome) (d : display)
    (rest : list (cursor_outcome * display)) :
  PyStr.truthy (d_filename (shown (Connect.viewer s))) = true ->
  single_char_keys (Connect.exam (Connect.self s)) ->
  Imexamine.get_options (Connect.exam (Connect.self s)) <> [] ->
  Forall (fun od => keeps_session (fst od) = true) prefix ->
  pending (Connect.viewer s) = prefix ++ (o, d) :: rest ->
  length prefix < fuel ->
  exists keys l0 s0 fuel0,
    Connect.imexam fuel s = Connect.while_current_key (S fuel0) keys l0 s0 /\
    pending (Connect.viewer s0) = (o, d) :: rest /\
    Connect.key_truthy (Connect.current_key l0) = true /\
    Obs.count Obs.is_cursor_read (Connect.trace s0) =
      Obs.count Obs.is_cursor_read (Connect.trace s) + length prefix.
Proof.
  intros Himg Hkeys Hne Halive Hp Hfuel.
  destruct (Imexamine.get_options (Connect.exam (Connect.self s)))
    as [|k0 ks] eqn:Hopts; [now elim Hne|].
  assert (Hk0 : PyStr.truthy k0 = true).
  { apply single_truthy. unfold single_char_keys in Hkeys.
    rewrite Hopts in Hkeys. now inversion Hkeys. }
  rewrite (imexam_enter _ _ Himg).
  rewrite (run_imexam_enter _ (image_loaded s) k0 ks) by exact Hopts.
  set (s1 := session_start (image_loaded s)).
  replace fuel with (length prefix + S (fuel - length prefix - 1)) by lia.
  destruct (keep_going prefix (S (fuel - length prefix - 1))
              (Connect.mkLocals None None (Some k0)) s1 ((o, d) :: rest)
              Halive Hp Hk0) as [l' [s' [Hrun [Hp' [Hl' [_ Hc']]]]]].
  change (Imexamine.get_options (Connect.exam (Connect.self s1)))
    with (Imexamine.get_options (Connect.exam (Connect.self s))) in Hrun.
  rewrite Hopts in Hrun.
  exists (k0 :: ks), l', s', (fuel - length prefix - 1).
  repeat split; try assumption.
  rewrite Hc'. subst s1. rewrite entry_trace, count_app.
  destruct (entry_events_quiet s) as [_ [_ R]]. rewrite R. lia.
Qed.

(* ================================================================== *)
(** ** A failing cursor read *)

(** C4 (as the code has it): when the cursor read raises KeyError, at any
    point of a session that started with an image, the session prints and
    quits: the entry point returns normally and nothing more is read. *)
Theorem KeyError_on_cursor_read_ends_session
    (s : Connect.State) (fuel : nat) (prefix : list (cursor_outcome * display))
    (d : display) (rest : list (cursor_outcome * display)) :
  PyStr.truthy (d_filename (shown (Connect.viewer s))) = true ->
  single_char_keys (Connect.exam (Connect.self s)) ->
  Imexamine.get_options (Connect.exam (Connect.self s)) <> [] ->
  Forall (fun od => keeps_session (fst od) = true) prefix ->
  pending (Connect.viewer s) = prefix ++ (CursorFail KeyError, d) :: rest ->
  length prefix < fuel ->
  exists s',
    Connect.imexam fuel s = (Ok tt, s') /\
    pending (Connect.viewer s') = rest /\
    Obs.count Obs.is_cursor_read (Connect.trace s') =
      Obs.count Obs.is_cursor_read (Connect.trace s) + length prefix + 1.
Proof.
  intros Himg Hkeys Hne Halive Hp Hfuel.
  destruct (session_reaches s fuel prefix _ d rest Himg Hkeys Hne Halive Hp Hfuel)
    as [keys [l0 [s0 [fuel0 [Hrun [Hp0 [Hl0 Hc0]]]]]]].
  rewrite Hrun, while_step by exact Hl0.
  rewrite (pass_KeyError keys l0 s0 d rest Hp0).
  rewrite while_done by reflexivity.
  eexists. split; [reflexivity|]. split; [reflexivity|].
  rewrite after_read_trace.
  destruct (pass_counts (Connect.trace s0) _ [Print "Invalid key"]
              (refresh_events_quiet s0)) as [_ [_ R]].
  rewrite R, Hc0. cbn. lia.
Qed.

Lemma KeyError_on_cursor_read_ends_session_witness :
  exists s',
    Connect.imexam 2 (Sample.state Sample.frame1 (Sample.a_then_failure KeyError))
      = (Ok tt, s') /\
    pending (Connect.viewer s') = [(CursorOk 11%float 21%float "h", Sample.frame1)] /\
    Obs.count Obs.is_cursor_read (Connect.trace s') = 2.
Proof.
  apply (KeyError_on_cursor_read_ends_session
           (Sample.state Sample.frame1 (Sample.a_then_failure KeyError)) 2
           [(CursorOk 10%float 20%float "a", Sample.frame1)] Sample.frame1
           [(CursorOk 11%float 21%float "h", Sample.frame1)]).
  - reflexivity.
  - repeat constructor.
  - discriminate.
  - repeat constructor.
  - reflexivity.
  - cbn. lia.
Defined.

(** C4 (as the spec words it) fails: a cursor read that fails with an
    exception other than KeyError is not turned into a quit; the exception
    leaves the session entry point. *)
Lemma IOError_on_cursor_read_leaves_session :
  fst (Connect.imexam 2
         (Sample.state Sample.frame1 (Sample.a_then_failure (OtherError "IOError"))))
  = Raise (OtherError "IOError").
Proof. vm_compute. reflexivity. Qed.

(** C9: in a session that started with an image, when the cursor read
    fails after events that kept the loop going: if the failure is a
    KeyError the entry point returns normally, and the last things the
    session did are that cursor read and one "Invalid key" message (no
    handler call follows the read); if it is any other exception, that
    exception leaves the entry point, and the failed read is the last thing
    the session did.  In both cases nothing more is read. *)
Theorem failed_cursor_read
    (s : Connect.State) (fuel : nat) (prefix : list (cursor_outcome * display))
    (e : exn) (d : display) (rest : list (cursor_outcome * display)) :
  PyStr.truthy (d_filename (shown (Connect.viewer s))) = true ->
  single_char_keys (Connect.exam (Connect.self s)) ->
  Imexamine.get_options (Connect.exam (Connect.self s)) <> [] ->
  Forall (fun od => keeps_session (fst od) = true) prefix ->
  pending (Connect.viewer s) = prefix ++ (CursorFail e, d) :: rest ->
  length prefix < fuel ->
  exists tr0,
    pending (Connect.viewer (snd (Connect.imexam fuel s))) = rest /\
    (e = KeyError ->
       fst (Connect.imexam fuel s) = Ok tt /\
       Connect.trace (snd (Connect.imexam fuel s)) =
         tr0 ++ [ViewerCall CallReadCursor; Print "Invalid key"]) /\
    (e <> KeyError ->
       fst (Connect.imexam fuel s) = Raise e /\
       Connect.trace (snd (Connect.imexam fuel s)) =
         tr0 ++ [ViewerCall CallReadCursor]).
Proof.
  intros Himg Hkeys Hne Halive Hp Hfuel.
  destruct (session_reaches s fuel prefix _ d rest Himg Hkeys Hne Halive Hp Hfuel)
    as [keys [l0 [s0 [fuel0 [Hrun [Hp0 [Hl0 _]]]]]]].
  exists (Connect.trace s0 ++ refresh_events s0).
  rewrite Hrun, while_step by exact Hl0.
  assert (Hdec : e = KeyError \/ e <> KeyError)
    by (destruct e; (now left) || (right; discriminate)).
  destruct Hdec as [->|Hother].
  - rewrite (pass_KeyError keys l0 s0 d rest Hp0).
    rewrite while_done by reflexivity.
    cbn [fst snd]. rewrite after_read_trace, <- !app_assoc.
    split; [reflexivity|]. split; [intros _; split; reflexivity|].
    intros H. now elim H.
  - rewrite (pass_other_error keys l0 s0 e d rest Hother Hp0).
    cbn [fst snd]. rewrite after_read_trace, <- !app_assoc.
    split; [reflexivity|]. split; [intros H; contradiction|].
    intros _. split; reflexivity.
Qed.

Lemma failed_cursor_read_witness :
  exists tr0,
    pending (Connect.viewer (snd (Connect.imexam 2
       (Sample.state Sample.frame1 (Sample.a_then_failure (OtherError "IOError"))))))
      = [(CursorOk 11%float 21%float "h", Sample.frame1)] /\
    (OtherError "IOError" = KeyError ->
       fst (Connect.imexam 2
              (Sample.state Sample.frame1 (Sample.a_then_failure (OtherError "IOError"))))
         = Ok tt /\
       Connect.trace (snd (Connect.imexam 2
              (Sample.state Sample.frame1 (Sample.a_then_failure (OtherError "IOError")))))
         = tr0 ++ [ViewerCall CallReadCursor; Print "Invalid key"]) /\
    (OtherError "IOError" <> KeyError ->
       fst (Connect.imexam 2
              (Sample.state Sample.frame1 (Sample.a_then_failure (OtherError "IOError"))))
         = Raise (OtherError "IOError") /\
       Connect.trace (snd (Connect.imexam 2
              (Sample.state Sample.frame1 (Sample.a_then_failure (OtherError "IOError")))))
         = tr0 ++ [ViewerCall CallReadCursor]).
Proof.
  apply (failed_cursor_read
           (Sample.state Sample.frame1 (Sample.a_then_failure (OtherError "IOError"))) 2
           [(CursorOk 10%float 20%float "a", Sample.frame1)]
           (OtherError "IOError") Sample.frame1
           [(CursorOk 11%float 21%float "h", Sample.frame1)]).
  - reflexivity.
  - repeat constructor.
  - discriminate.
  - repeat constructor.
  - reflexivity.
  - cbn. lia.
Defined.

(* ================================================================== *)
(** ** The console at session start *)

Lemma read_event_extends l s :
  exists es, Connect.trace (snd (Connect.read_event l s)) = Connect.trace s ++ es.
Proof.
  unfold_session.
  destruct (pending (Connect.viewer s)) as [|[[cx cy k|e] d] rest];
    cbn [snd Connect.trace]; try (eexists; reflexivity).
  destruct e; cbn [snd Connect.trace]; rewrite <- ?app_assoc; eexists; reflexivity.
Qed.

Lemma classify_extends keys ev s :
  exists es, Connect.trace (snd (Connect.classify keys ev s)) = Connect.trace s ++ es.
Proof.
  destruct ev as [[ex ey] k]. unfold_session.
  destruct (negb (PyStr.mem k keys) && negb (PyStr.contains "q" k)).
  - eexists; reflexivity.
  - destruct (PyStr.contains "q" k); [exists []; symmetry; apply app_nil_r|].
    destruct ex as [cx|]; [|exists []; symmetry; apply app_nil_r].
    destruct ey as [cy|]; [|exists []; symmetry; apply app_nil_r].
    unfold Imexamine.do_option.
    destruct (Imexamine.resolve k (Connect.exam (Connect.self s)));
      cbn [snd Connect.trace]; eexists; reflexivity.
Qed.

Lemma loop_body_extends keys l s :
  exists es, Connect.trace (snd (Connect.loop_body keys l s)) = Connect.trace s ++ es.
Proof.
  rewrite loop_body_unfold.
  destruct (read_event_extends l (refreshed s)) as [es1 H1].
  rewrite refreshed_trace in H1.
  destruct (Connect.read_event l (refreshed s)) as [[ev|e| |] s1]; cbn [snd] in *;
    try (eexists; rewrite H1, <- app_assoc; reflexivity).
  destruct (classify_extends keys ev s1) as [es2 H2].
  eexists. rewrite H2, H1, <- !app_assoc. reflexivity.
Qed.

Lemma while_extends fuel :
  forall keys l s,
    exists es,
      Connect.trace (snd (Connect.while_current_key fuel keys l s)) =
      Connect.trace s ++ es.
Proof.
  induction fuel as [|fuel IH]; intros keys l s.
  - cbn. destruct (Connect.key_truthy (Connect.current_key l));
      exists []; symmetry; apply app_nil_r.
  - destruct (Connect.key_truthy (Connect.current_key l)) eqn:Hl.
    + rewrite while_step by exact Hl.
      destruct (loop_body_extends keys l s) as [es1 H1].
      destruct (Connect.loop_body keys l s) as [[l'|e| |] s1]; cbn [snd] in *;
        try (eexists; exact H1).
      destruct (IH keys l' s1) as [es2 H2].
      eexists. rewrite H2, H1, <- app_assoc. reflexivity.
    + rewrite while_done by exact Hl. exists []. symmetry. apply app_nil_r.
Qed.

(** C7: [_run_imexam] first prints the banner "Press 'q' to quit" (between
    two newlines), then one line per available key with its description, in
    the order of the key list; everything else it does, every cursor read
    included, comes after.  So it is for a session entered through [imexam]
    with an image loaded. *)
Theorem banner_then_options_before_any_read (fuel : nat) (s : Connect.State) :
  let header :=
    Print (PyStr.newline ++ "Press 'q' to quit" ++ PyStr.newline) ::
    map (fun b => PrintOption (Imexamine.key b) (Imexamine.description b))
        (Imexamine.imexam_option_funcs (Connect.exam (Connect.self s))) in
  Obs.count Obs.is_cursor_read header = 0 /\
  (exists rest,
     Connect.trace (snd (Connect._run_imexam fuel s)) =
     Connect.trace s ++ header ++ rest) /\
  (PyStr.truthy (d_filename (shown (Connect.viewer s))) = true ->
   exists rest,
     Connect.trace (snd (Connect.imexam fuel s)) =
     Connect.trace s ++
     [ViewerCall CallGetFilename; ViewerCall CallGetData; ViewerCall CallFrame] ++
     header ++ rest).
Proof.
  cbv zeta.
  change (Print (PyStr.newline ++ "Press 'q' to quit" ++ PyStr.newline) ::
          map (fun b => PrintOption (Imexamine.key b) (Imexamine.description b))
            (Imexamine.imexam_option_funcs (Connect.exam (Connect.self s))))
    with (console_header s).
  assert (Hrun : forall s0, exists rest,
            Connect.trace (snd (Connect._run_imexam fuel s0)) =
            Connect.trace s0 ++ console_header s0 ++ rest).
  { intros s0.
    destruct (Imexamine.get_options (Connect.exam (Connect.self s0)))
      as [|k0 ks] eqn:Hopts.
    - rewrite (run_imexam_no_keys fuel s0 Hopts). exists [].
      cbn [snd Connect.trace]. now rewrite app_nil_r.
    - rewrite (run_imexam_enter fuel s0 k0 ks Hopts).
      destruct (while_extends fuel (k0 :: ks)
                  (Connect.mkLocals None None (Some k0)) (session_start s0))
        as [es Hes].
      eexists. rewrite Hes. unfold session_start. cbn [Connect.trace].
      rewrite <- !app_assoc. reflexivity. }
  split; [|split].
  - destruct (print_options_quiet (Connect.exam (Connect.self s))) as [_ [_ R]].
    unfold console_header.
    change (Print Connect.banner :: ?l) with ([Print Connect.banner] ++ l).
    rewrite count_app, R. reflexivity.
  - apply Hrun.
  - intros Himg. rewrite (imexam_enter fuel s Himg).
    destruct (Hrun (image_loaded s)) as [rest Hrest].
    exists rest. rewrite Hrest. unfold image_loaded at 1. cbn [Connect.trace].
    rewrite <- !app_assoc. reflexivity.
Qed.

(* ================================================================== *)
(** ** The viewer check of the constructor *)

Lemma lower_ascii_d (c : ascii) :
  PyStr.lower_ascii c = "d"%char -> c = "d"%char \/ c = "D"%char.
Proof.
  destruct c as [[] [] [] [] [] [] [] []]; vm_compute; intros H;
    try discriminate H; auto.
Qed.

Lemma lower_ascii_s (c : ascii) :
  PyStr.lower_ascii c = "s"%char -> c = "s"%char \/ c = "S"%char.
Proof.
  destruct c as [[] [] [] [] [] [] [] []]; vm_compute; intros H;
    try discriminate H; auto.
Qed.

Lemma lower_ascii_9 (c : ascii) :
  PyStr.lower_ascii c = "9"%char -> c = "9"%char.
Proof.
  destruct c as [[] [] [] [] [] [] [] []]; vm_compute; intros H;
    try discriminate H; auto.
Qed.

Lemma lower_is_ds9 (name : string) :
  PyStr.lower name = "ds9" <-> In name ["ds9"; "dS9"; "Ds9"; "DS9"].
Proof.
  split.
  - destruct name as [|c1 [|c2 [|c3 [|c4 t]]]]; cbn [PyStr.lower];
      intros H; try discriminate H.
    injection H as H1 H2 H3.
    apply lower_ascii_d in H1. apply lower_ascii_s in H2. apply lower_ascii_9 in H3.
    subst c3. destruct H1 as [-> | ->], H2 as [-> | ->]; cbn; auto.
  - intros [<-|[<-|[<-|[<-|[]]]]]; reflexivity.
Qed.

(** C8: the constructor compares the lower-cased viewer name with the list
    of possible viewers.  For any name that is not "ds9" in some letter case
    it warns and raises NotImplementedError: no window is started and no
    instance exists.  For "ds9" in any letter case (ds9, dS9, Ds9, DS9) the
    window is started and the instance is built. *)
Theorem constructor_accepts_only_ds9
    (new_exam : Imexamine.t) (target path : option string) (viewer_name : string)
    (wait_time : Z) (quit_window : bool) (v : Viewer) :
  (PyStr.mem (PyStr.lower viewer_name) Connect._possible_viewers = true <->
   In viewer_name ["ds9"; "dS9"; "Ds9"; "DS9"]) /\
  (~ In viewer_name ["ds9"; "dS9"; "Ds9"; "DS9"] ->
   Connect.__init__ new_exam target path viewer_name wait_time quit_window v =
   (Raise NotImplementedError, [Warn ("**Unsupported viewer" ++ PyStr.newline)])) /\
  (In viewer_name ["ds9"; "dS9"; "Ds9"; "DS9"] ->
   Connect.__init__ new_exam target path viewer_name wait_time quit_window v =
   (Ok (Connect.mk (Connect.mk_ds9 target path wait_time quit_window) new_exam
          (d_frame (shown v)) "imexam_log.txt"),
    [ViewerCall (CallStart target path wait_time quit_window); ViewerCall CallFrame])).
Proof.
  assert (Hmem : PyStr.mem (PyStr.lower viewer_name) Connect._possible_viewers = true
                 <-> In viewer_name ["ds9"; "dS9"; "Ds9"; "DS9"]).
  { rewrite <- lower_is_ds9, mem_In. cbn. intuition congruence. }
  split; [exact Hmem|]. split; intros H.
  - unfold Connect.__init__.
    destruct (PyStr.mem (PyStr.lower viewer_name) Connect._possible_viewers) eqn:E.
    + elim H. now apply Hmem.
    + reflexivity.
  - unfold Connect.__init__.
    apply lower_is_ds9 in H. rewrite H. reflexivity.
Qed.

(* ================================================================== *)
(** ** The plot name *)

Lemma os_is_not_a_global : PyStr.mem "os" Connect.module_globals = false.
Proof. reflexivity. Qed.

(** C10: for every non-empty filename, [plotname] raises NameError for the
    name [os] (connect.py never imports it) with nothing done yet: the
    filesystem has not been examined and the plot name is unchanged.  Called
    without an argument it does not raise.  Whatever the argument, the plot
    name after the call is the one before. *)
Theorem plotname_raises_NameError
    (files : list string) (filename : string) (s : Connect.State) :
  (PyStr.truthy filename = true ->
   Connect.plotname files (Some filename) s = (Raise (NameError "os"), s)) /\
  fst (Connect.plotname files None s) = Ok tt /\
  (forall arg : option string,
     Imexamine.plot_name (Connect.exam (Connect.self (snd (Connect.plotname files arg s))))
     = Imexamine.plot_name (Connect.exam (Connect.self s))).
Proof.
  split; [|split].
  - intros H. unfold Connect.plotname. cbn [Connect.arg_truthy]. rewrite H.
    cbn [negb]. unfold Connect.global_name. rewrite os_is_not_a_global.
    reflexivity.
  - reflexivity.
  - intros [f|]; unfold Connect.plotname; cbn [Connect.arg_truthy].
    + destruct (PyStr.truthy f); cbn [negb].
      * unfold Connect.global_name. rewrite os_is_not_a_global. reflexivity.
      * reflexivity.
    + reflexivity.
Qed.

(* ================================================================== *)
(** ** The key registry *)















Lemma unlearn_state (s : Connect.State) :
  Connect.unlearn s =
  (Ok tt,
   Connect.mkState
     (Connect.mk (Connect.window (Connect.self s))
        (Imexamine.unlearn_all (Connect.exam (Connect.self s)))
        (Connect.current_frame (Connect.self s))
        (Connect.logfile (Connect.self s)))
     (Connect.viewer s) (Connect.trace s)).
Proof. reflexivity. Qed.

(** C6: [unlearn] sets the parameter record of every binding to its default
    and changes nothing else: the keys, in their order, the handlers, the
    descriptions and the defaults are the ones before, and so are the pixel
    buffer, the viewer and the console. *)
Theorem unlearn_resets_parameters_only (s : Connect.State) :
  let s' := snd (Connect.unlearn s) in
  fst (Connect.unlearn s) = Ok tt /\
  Forall (fun b => Imexamine.parameters b = Imexamine.defaults b) (bindings_of s') /\
  Imexamine.get_options (Connect.exam (Connect.self s')) =
    Imexamine.get_options (Connect.exam (Connect.self s)) /\
  map Imexamine.handler (bindings_of s') = map Imexamine.handler (bindings_of s) /\
  map Imexamine.description (bindings_of s') = map Imexamine.description (bindings_of s) /\
  map Imexamine.defaults (bindings_of s') = map Imexamine.defaults (bindings_of s) /\
  Imexamine._data (Connect.exam (Connect.self s')) =
    Imexamine._data (Connect.exam (Connect.self s)) /\
  Connect.viewer s' = Connect.viewer s /\
  Connect.trace s' = Connect.trace s.
Proof.
  cbv zeta. rewrite unlearn_state. cbn [fst snd].
  unfold bindings_of, Imexamine.get_options, Imexamine.unlearn_all,
    Imexamine.with_bindings.
  cbn [Connect.self Connect.exam Connect.viewer Connect.trace
       Imexamine.imexam_option_funcs Imexamine._data].
  rewrite !map_map. cbn [Imexamine.reset_binding Imexamine.key Imexamine.handler
                          Imexamine.description Imexamine.defaults].
  repeat split.
  apply Forall_forall. intros b Hb. apply in_map_iff in Hb.
  destruct Hb as [b0 [<- _]]. reflexivity.
Qed.

Example register_adds_unique_keys_only :
  let s' := after_registers [Sample.first_call; Sample.bad_call; Sample.second_call]
              (Sample.state Sample.frame1 []) in
  Imexamine.get_options (Connect.exam (Connect.self s')) = ["a"; "h"; "p"] /\
  option_map Imexamine.handler (Imexamine.resolve "p" (Connect.exam (Connect.self s')))
    = Some (PyFunc "photometry_handler" 3) /\
  option_map Imexamine.handler (Imexamine.resolve "a" (Connect.exam (Connect.self s')))
    = Some (PyFunc "aper_phot" 3) /\
  Imexamine.resolve "zz" (Connect.exam (Connect.self s')) = None.
Proof. vm_compute. repeat split. Qed.

Example unlearn_sample :
  map Imexamine.parameters
    (bindings_of (snd (Connect.unlearn (Sample.state Sample.frame1 []))))
  = [[("radius", PInt 5)]; [("nbins", PInt 100)]].
Proof. reflexivity. Qed.

(* ================================================================== *)
(** ** The fuel is never what stops a session *)

Lemma loop_body_consumes keys l s :
  match Connect.loop_body keys l s with
  | (Ok _, s') =>
      exists od, pending (Connect.viewer s) = od :: pending (Connect.viewer s')
  | (OutOfFuel, _) => False
  | _ => True
  end.
Proof.
  rewrite loop_body_unfold.
  pose proof (refreshed_viewer s) as Hv.
  destruct (pending (Connect.viewer s)) as [|[[cx cy k|e] d] rest] eqn:Hp.
  - rewrite read_blocked by (now rewrite Hv). exact I.
  - rewrite (read_ok l (refreshed s) cx cy k d rest) by (now rewrite Hv).
    unfold_session.
    destruct (negb (PyStr.mem k keys) && negb (PyStr.contains "q" k)).
    + exists (CursorOk cx cy k, d). reflexivity.
    + destruct (PyStr.contains "q" k).
      * exists (CursorOk cx cy k, d). reflexivity.
      * unfold Imexamine.do_option.
        destruct (Imexamine.resolve k _); cbn; [|exact I].
        exists (CursorOk cx cy k, d). reflexivity.
  - assert (Hdec : e = KeyError \/ e <> KeyError)
      by (destruct e; (now left) || (right; discriminate)).
    destruct Hdec as [->|Hother].
    + rewrite (read_KeyError l (refreshed s) d rest) by (now rewrite Hv).
      rewrite classify_quit by reflexivity.
      exists (CursorFail KeyError, d). reflexivity.
    + rewrite (read_other_error l (refreshed s) e d rest Hother)
        by (now rewrite Hv).
      exact I.
Qed.

Lemma while_never_out_of_fuel (fuel : nat) :
  forall keys l s,
    length (pending (Connect.viewer s)) < fuel ->
    fst (Connect.while_current_key fuel keys l s) <> OutOfFuel.
Proof.
  induction fuel as [|fuel IH]; intros keys l s Hlen; [lia|].
  destruct (Connect.key_truthy (Connect.current_key l)) eqn:Hl.
  - rewrite while_step by exact Hl.
    pose proof (loop_body_consumes keys l s) as Hc.
    destruct (Connect.loop_body keys l s) as [[l'|e| |] s1]; cbn [fst];
      try discriminate; [|contradiction].
    destruct Hc as [od Hod]. apply IH. rewrite Hod in Hlen. cbn in Hlen. lia.
  - rewrite while_done by exact Hl. discriminate.
Qed.

Lemma imexam_never_out_of_fuel (fuel : nat) (s : Connect.State) :
  length (pending (Connect.viewer s)) < fuel ->
  fst (Connect.imexam fuel s) <> OutOfFuel.
Proof.
  intros Hlen.
  destruct (PyStr.truthy (d_filename (shown (Connect.viewer s)))) eqn:Himg.
  - rewrite (imexam_enter fuel s Himg).
    destruct (Imexamine.get_options (Connect.exam (Connect.self (image_loaded s))))
      as [|k0 ks] eqn:Hopts.
    + rewrite (run_imexam_no_keys fuel _ Hopts). discriminate.
    + rewrite (run_imexam_enter fuel _ k0 ks Hopts).
      apply while_never_out_of_fuel. exact Hlen.
  - rewrite (imexam_no_image fuel s Himg). discriminate.
Qed.

(* ================================================================== *)
(** ** Small checks of the definitions *)

Example lower_mixed_case : PyStr.lower "Ds9" = "ds9" /\ PyStr.lower "SAOImage" = "saoimage".
Proof. split; reflexivity. Qed.

Example contains_examples :
  PyStr.contains "q" "aqb" = true /\ PyStr.contains "q" "abc" = false /\
  PyStr.contains "q" "" = false /\ PyStr.contains "ds9" "ds9" = true.
Proof. repeat split; reflexivity. Qed.

Example constructor_rejects_ginga :
  Connect.__init__ Sample.exam0 None None "ginga" 10 true (mkViewer Sample.frame1 [])
  = (Raise NotImplementedError, [Warn ("**Unsupported viewer" ++ PyStr.newline)]).
Proof. reflexivity. Qed.

(** The scenario of a user key: p is registered, the user presses p at
    (10.0, 20.0), then q. *)
Example registered_key_is_dispatched :
  let s0 := snd (Connect.register Sample.first_call
                   (Sample.state Sample.frame1
                      [(CursorOk 10%float 20%float "p", Sample.frame1);
                       (CursorOk 0%float 0%float "q", Sample.frame1)])) in
  fst (Connect.imexam 2 s0) = Ok tt /\
  Obs.invocations (Connect.trace (snd (Connect.imexam 2 s0))) =
    [Invoke (PyFunc "photometry_handler" 3) Sample.buffer1 10%float 20%float].
Proof. vm_compute. split; reflexivity. Qed.

(** An empty key is reported as invalid and then ends the loop, the empty
    string being false. *)
Example empty_key_ends_session :
  let s0 := Sample.state Sample.frame1
              [(CursorOk 1%float 1%float "", Sample.frame1);
               (CursorOk 2%float 2%float "a", Sample.frame1)] in
  fst (Connect.imexam 5 s0) = Ok tt /\
  Obs.count Obs.is_cursor_read (Connect.trace (snd (Connect.imexam 5 s0))) = 1 /\
  Obs.count (Obs.is_print "Invalid key") (Connect.trace (snd (Connect.imexam 5 s0))) = 1.
Proof. vm_compute. repeat split; reflexivity. Qed.

(** With nothing more to come from the user the session waits. *)
Example session_waits_for_the_user :
  fst (Connect.imexam 5
         (Sample.state Sample.frame1 [(CursorOk 1%float 1%float "a", Sample.frame1)]))
  = Blocked.
Proof. vm_compute. reflexivity. Qed.

(* ================================================================== *)
(** ** Further properties of the session entry point *)

(** X3: with an image loaded but no key registered, [imexam] raises
    IndexError at [keys[0]]: the pixel data and the frame identity have been
    taken from the viewer and the banner printed, but the cursor is never
    read. *)
Theorem imexam_without_keys_raises_IndexError (fuel : nat) (s : Connect.State) :
  PyStr.truthy (d_filename (shown (Connect.viewer s))) = true ->
  Imexamine.get_options (Connect.exam (Connect.self s)) = [] ->
  exists s',
    Connect.imexam fuel s = (Raise IndexError, s') /\
    Connect.trace s' =
      Connect.trace s ++
      [ViewerCall CallGetFilename; ViewerCall CallGetData; ViewerCall CallFrame;
       Print Connect.banner] /\
    Imexamine._data (Connect.exam (Connect.self s')) = d_data (shown (Connect.viewer s)) /\
    Connect.current_frame (Connect.self s') = d_frame (shown (Connect.viewer s)) /\
    pending (Connect.viewer s') = pending (Connect.viewer s).
Proof.
  intros Himg Hopts.
  rewrite (imexam_enter fuel s Himg).
  rewrite (run_imexam_no_keys fuel (image_loaded s)) by exact Hopts.
  eexists. split; [reflexivity|].
  cbn [Connect.trace Connect.self Connect.viewer image_loaded Connect.exam
       Connect.current_frame Imexamine.set_data Imexamine._data].
  repeat split.
  unfold console_header, Imexamine.print_options.
  cbn [Connect.self image_loaded Connect.exam Imexamine.set_data
       Imexamine.imexam_option_funcs].
  unfold Imexamine.get_options in Hopts. apply map_eq_nil in Hopts.
  rewrite Hopts. cbn [map]. now rewrite <- app_assoc.
Qed.

Lemma imexam_without_keys_raises_IndexError_witness :
  exists s',
    Connect.imexam 3
      (Connect.mkState
         (Connect.mk (Connect.mk_ds9 None None 10 true)
            (Imexamine.mk [] [] "imexam_plot.pdf") "0" "imexam_log.txt")
         (mkViewer Sample.frame1 Sample.a_z_q) [])
    = (Raise IndexError, s') /\
    Connect.trace s' =
      [ViewerCall CallGetFilename; ViewerCall CallGetData; ViewerCall CallFrame;
       Print Connect.banner] /\
    Imexamine._data (Connect.exam (Connect.self s')) = Sample.buffer1 /\
    Connect.current_frame (Connect.self s') = "1" /\
    pending (Connect.viewer s') = Sample.a_z_q.
Proof.
  apply (imexam_without_keys_raises_IndexError 3
           (Connect.mkState
              (Connect.mk (Connect.mk_ds9 None None 10 true)
                 (Imexamine.mk [] [] "imexam_plot.pdf") "0" "imexam_log.txt")
              (mkViewer Sample.frame1 Sample.a_z_q) [])).
  - reflexivity.
  - reflexivity.
Defined.

(* ================================================================== *)
(** ** Further properties of the plot name and of the log file *)

(** X10: [plotname] never reaches [os.access]: for every argument its outcome
    is the same whichever files exist, no file is looked up, and the
    instance is left as it was (the branches that warn about an existing file
    and that set the plot name are never run). *)
Theorem plotname_ignores_filesystem
    (files files' : list string) (arg : option string) (s : Connect.State) :
  Connect.plotname files arg s = Connect.plotname files' arg s /\
  Obs.count Account.is_os_access (Connect.trace (snd (Connect.plotname files arg s))) =
    Obs.count Account.is_os_access (Connect.trace s) /\
  Connect.self (snd (Connect.plotname files arg s)) = Connect.self s.
Proof.
  unfold Connect.plotname.
  destruct (Connect.arg_truthy arg); cbn [negb].
  - unfold Connect.global_name. rewrite os_is_not_a_global.
    repeat split; reflexivity.
  - unfold_session. cbn [snd Connect.trace Connect.self].
    rewrite count_app. cbn. repeat split. lia.
Qed.

(** X11: [setlog] passes to [set_logging] the file name it is given and
    remembers it: a later call without a file name (or with an empty one)
    passes the remembered name again.  It changes nothing else of the
    instance. *)
Theorem setlog_remembers_filename
    (f : string) (later : option string) (on1 on2 : bool) (level1 level2 : Z)
    (c : Connect.t) :
  PyStr.truthy f = true ->
  Connect.arg_truthy later = false ->
  let (c1, call1) := Logging.setlog (Some f) on1 level1 c in
  let (c2, call2) := Logging.setlog later on2 level2 c1 in
  call1 = Logging.mk_call f on1 level1 /\
  call2 = Logging.mk_call f on2 level2 /\
  Connect.logfile c2 = f /\
  Connect.window c2 = Connect.window c /\
  Connect.exam c2 = Connect.exam c /\
  Connect.current_frame c2 = Connect.current_frame c.
Proof.
  intros Hf Hlater. unfold Logging.setlog.
  cbn [Connect.arg_truthy]. rewrite Hf, Hlater.
  cbn. repeat split.
Qed.

Lemma setlog_remembers_filename_witness :
  let (c1, call1) :=
    Logging.setlog (Some "night1.log") true Logging.DEBUG (Sample.instance Sample.frame1) in
  let (c2, call2) := Logging.setlog None false Logging.DEBUG c1 in
  call1 = Logging.mk_call "night1.log" true Logging.DEBUG /\
  call2 = Logging.mk_call "night1.log" false Logging.DEBUG /\
  Connect.logfile c2 = "night1.log" /\
  Connect.window c2 = Connect.window (Sample.instance Sample.frame1) /\
  Connect.exam c2 = Connect.exam (Sample.instance Sample.frame1) /\
  Connect.current_frame c2 = Connect.current_frame (Sample.instance Sample.frame1).
Proof.
  apply (setlog_remembers_filename "night1.log" None true false
           Logging.DEBUG Logging.DEBUG (Sample.instance Sample.frame1)).
  - reflexivity.
  - reflexivity.
Defined.

(* ================================================================== *)
(** ** Accounting for a whole session *)

Lemma handler_calls_app (a b : list event) :
  Account.handler_calls (a ++ b) = Account.handler_calls a ++ Account.handler_calls b.
Proof. apply flat_map_app. Qed.

Lemma refresh_events_account (s : Connect.State) :
  let changed :=
    if String.eqb (Connect.current_frame (Connect.self s))
                  (d_frame (shown (Connect.viewer s)))
    then 0 else 1 in
  Account.handler_calls (refresh_events s) = [] /\
  Obs.count Account.is_frame_poll (refresh_events s) = 1 /\
  Obs.count Obs.is_data_fetch (refresh_events s) = changed /\
  Obs.count Account.is_filename_query (refresh_events s) = changed.
Proof.
  unfold refresh_events. cbv zeta.
  destruct (String.eqb _ _); repeat split; reflexivity.
Qed.

Lemma entry_events_account (s : Connect.State) :
  Account.handler_calls (entry_events s) = [] /\
  Obs.count Account.is_frame_poll (entry_events s) = 1 /\
  Obs.count Obs.is_data_fetch (entry_events s) = 1 /\
  Obs.count Account.is_filename_query (entry_events s) = 2.
Proof.
  assert (Hpo : forall l : list Imexamine.KeyBinding,
             Account.handler_calls
               (map (fun b => PrintOption (Imexamine.key b) (Imexamine.description b)) l) = [] /\
             forall p, (forall k d, p (PrintOption k d) = false) ->
               Obs.count p
                 (map (fun b => PrintOption (Imexamine.key b) (Imexamine.description b)) l) = 0).
  { induction l as [|b l [IH1 IH2]]; split; try reflexivity.
    - exact IH1.
    - intros p Hp. unfold Obs.count in *. cbn [map filter]. rewrite Hp.
      now apply IH2. }
  destruct (Hpo (Imexamine.imexam_option_funcs (Connect.exam (Connect.self s))))
    as [H1 H2].
  unfold entry_events, console_header, Imexamine.print_options.
  change (Print Connect.banner :: ?l) with ([Print Connect.banner] ++ l).
  rewrite !handler_calls_app, !count_app, H1, !H2 by reflexivity.
  repeat split; reflexivity.
Qed.

(** The counts of a trace that a pass extends: the counts before, those of
    the frame check, the cursor read, and those of what follows the read. *)
Lemma pass_account (s : Connect.State) (d : display)
    (rest : list (cursor_outcome * display)) (es : list event) :
  let tr' := Connect.trace (after_read (refreshed s) d rest es) in
  let changed :=
    if String.eqb (Connect.current_frame (Connect.self s))
                  (d_frame (shown (Connect.viewer s)))
    then 0 else 1 in
  Account.handler_calls tr' =
    Account.handler_calls (Connect.trace s) ++ Account.handler_calls es /\
  Obs.count (Obs.is_print "Invalid key") tr' =
    Obs.count (Obs.is_print "Invalid key") (Connect.trace s) +
    Obs.count (Obs.is_print "Invalid key") es /\
  Obs.count Obs.is_cursor_read tr' =
    Obs.count Obs.is_cursor_read (Connect.trace s) + 1 + Obs.count Obs.is_cursor_read es /\
  Obs.count Account.is_frame_poll tr' =
    Obs.count Account.is_frame_poll (Connect.trace s) + 1 +
    Obs.count Account.is_frame_poll es /\
  Obs.count Obs.is_data_fetch tr' =
    Obs.count Obs.is_data_fetch (Connect.trace s) + changed +
    Obs.count Obs.is_data_fetch es /\
  Obs.count Account.is_filename_query tr' =
    Obs.count Account.is_filename_query (Connect.trace s) + changed +
    Obs.count Account.is_filename_query es.
Proof.
  cbv zeta. rewrite after_read_trace.
  destruct (refresh_events_quiet s) as [_ [P R]].
  destruct (refresh_events_account s) as [H [F [D N]]]. cbv zeta in D, N.
  change (ViewerCall CallReadCursor :: es) with ([ViewerCall CallReadCursor] ++ es).
  rewrite !handler_calls_app, !count_app, H, P, R, F, D, N. cbn.
  repeat split; lia.
Qed.

Lemma bound_presses_by_bindings (e e' : Imexamine.t)
    (script : list (cursor_outcome * display)) :
  Imexamine.imexam_option_funcs e' = Imexamine.imexam_option_funcs e ->
  Account.bound_presses e' script = Account.bound_presses e script /\
  Account.unbound_presses e' script = Account.unbound_presses e script.
Proof.
  intros H. unfold Account.bound_presses, Account.unbound_presses,
    Account.is_unbound_press, Imexamine.resolve.
  now rewrite H.
Qed.

Lemma run_account (prefix : list (cursor_outcome * display)) :
  forall (fuel : nat) (l : Connect.locals) (s : Connect.State)
         (rest : list (cursor_outcome * display)),
    Forall (fun od => keeps_session (fst od) = true) prefix ->
    pending (Connect.viewer s) = prefix ++ rest ->
    Connect.key_truthy (Connect.current_key l) = true ->
    let e := Connect.exam (Connect.self s) in
    exists l' s',
      Connect.while_current_key (length prefix + fuel) (Imexamine.get_options e) l s =
      Connect.while_current_key fuel (Imexamine.get_options e) l' s' /\
      pending (Connect.viewer s') = rest /\
      Connect.key_truthy (Connect.current_key l') = true /\
      bindings_of s' = bindings_of s /\
      Account.handler_calls (Connect.trace s') =
        Account.handler_calls (Connect.trace s) ++ Account.bound_presses e prefix /\
      Obs.count (Obs.is_print "Invalid key") (Connect.trace s') =
        Obs.count (Obs.is_print "Invalid key") (Connect.trace s) +
        Account.unbound_presses e prefix /\
      Obs.count Obs.is_cursor_read (Connect.trace s') =
        Obs.count Obs.is_cursor_read (Connect.trace s) + length prefix /\
      Obs.count Account.is_frame_poll (Connect.trace s') =
        Obs.count Account.is_frame_poll (Connect.trace s) + length prefix /\
      (forall tail,
         Obs.count Obs.is_data_fetch (Connect.trace s') +
         Account.frame_changes (Connect.current_frame (Connect.self s'))
           (shown (Connect.viewer s')) tail =
         Obs.count Obs.is_data_fetch (Connect.trace s) +
         Account.frame_changes (Connect.current_frame (Connect.self s))
           (shown (Connect.viewer s)) (prefix ++ tail)) /\
      (forall tail,
         Obs.count Account.is_filename_query (Connect.trace s') +
         Account.frame_changes (Connect.current_frame (Connect.self s'))
           (shown (Connect.viewer s')) tail =
         Obs.count Account.is_filename_query (Connect.trace s) +
         Account.frame_changes (Connect.current_frame (Connect.self s))
           (shown (Connect.viewer s)) (prefix ++ tail)).
Proof.
  induction prefix as [|[o d] prefix IH]; intros fuel l s rest Halive Hp Hl; cbv zeta.
  - exists l, s. cbn [length Nat.add app Account.bound_presses flat_map
                        Account.unbound_presses filter].
    rewrite app_nil_r. repeat split; try assumption; lia.
  - inversion Halive as [|? ? Ho Hrest]; subst.
    destruct o as [cx cy k|e0]; [|discriminate].
    cbn in Ho. apply andb_true_iff in Ho. destruct Ho as [Hk Hq].
    apply negb_true_iff in Hq.
    cbn [length Nat.add]. rewrite while_step by exact Hl.
    set (e := Connect.exam (Connect.self s)).
    set (keys := Imexamine.get_options e).
    assert (Hstep : exists es,
              Connect.loop_body keys l s =
              (Ok (Connect.mkLocals (Some cx) (Some cy) (Some k)),
               after_read (refreshed s) d (prefix ++ rest) es) /\
              Account.handler_calls es =
                Account.bound_presses e [(CursorOk cx cy k, d)] /\
              Obs.count (Obs.is_print "Invalid key") es =
                Account.unbound_presses e [(CursorOk cx cy k, d)] /\
              Obs.count Obs.is_cursor_read es = 0 /\
              Obs.count Account.is_frame_poll es = 0 /\
              Obs.count Obs.is_data_fetch es = 0 /\
              Obs.count Account.is_filename_query es = 0).
    { unfold Account.bound_presses, Account.unbound_presses, Account.is_unbound_press.
      cbn [flat_map filter fst].
      destruct (Imexamine.resolve k e) as [b|] eqn:Hr.
      - eexists. split.
        + apply (pass_dispatch keys l s cx cy k d _ b Hp
                   (mem_of_resolve k e b Hr) Hq Hr).
        + repeat split; reflexivity.
      - eexists. split.
        + apply (pass_invalid keys l s cx cy k d _ Hp (resolve_none_mem k e Hr) Hq).
        + repeat split; reflexivity. }
    destruct Hstep as [es [Hbody [Hcalls [Hinv [Hread [Hpoll [Hfetch Hname]]]]]]].
    rewrite Hbody.
    set (s1 := after_read (refreshed s) d (prefix ++ rest) es).
    assert (Hb1 : bindings_of s1 = bindings_of s) by apply after_read_bindings.
    destruct (IH fuel (Connect.mkLocals (Some cx) (Some cy) (Some k)) s1 rest
                Hrest eq_refl Hk)
      as [l' [s' [Hrun [Hp' [Hl' [Hb' [Hc' [Hi' [Hrd' [Hpl' [Hf' Hn']]]]]]]]]]].
    cbv zeta in Hrun, Hc', Hi'.
    rewrite (options_by_bindings s s1 Hb1) in Hrun.
    destruct (bound_presses_by_bindings e (Connect.exam (Connect.self s1)) prefix Hb1)
      as [Hbp Hup].
    rewrite Hbp in Hc'. rewrite Hup in Hi'.
    destruct (pass_account s d (prefix ++ rest) es) as [A1 [A2 [A3 [A4 [A5 A6]]]]].
    cbv zeta in A1, A2, A3, A4, A5, A6. fold s1 in A1, A2, A3, A4, A5, A6.
    assert (Hcur : Connect.current_frame (Connect.self s1) =
                   d_frame (shown (Connect.viewer s)))
      by apply refreshed_frame.
    exists l', s'. split; [exact Hrun|].
    split; [exact Hp'|]. split; [exact Hl'|]. split; [congruence|].
    split; [|split; [|split; [|split; [|split]]]].
    + rewrite Hc', A1, Hcalls, <- app_assoc.
      change ((CursorOk cx cy k, d) :: prefix) with ([(CursorOk cx cy k, d)] ++ prefix).
      unfold Account.bound_presses. now rewrite flat_map_app.
    + rewrite Hi', A2, Hinv.
      change ((CursorOk cx cy k, d) :: prefix) with ([(CursorOk cx cy k, d)] ++ prefix).
      unfold Account.unbound_presses. rewrite filter_app, length_app. lia.
    + rewrite Hrd', A3, Hread. cbn [length]. lia.
    + rewrite Hpl', A4, Hpoll. cbn [length]. lia.
    + intros tail. rewrite Hf', A5, Hfetch, Hcur.
      cbn [app Account.frame_changes Connect.viewer after_read shown]. subst s1.
      cbn [Connect.viewer after_read shown]. lia.
    + intros tail. rewrite Hn', A6, Hname, Hcur.
      cbn [app Account.frame_changes Connect.viewer after_read shown]. subst s1.
      cbn [Connect.viewer after_read shown]. lia.
Qed.

Lemma empty_key_unbound (e : Imexamine.t) :
  single_char_keys e -> PyStr.mem "" (Imexamine.get_options e) = false.
Proof.
  intros H. destruct (PyStr.mem "" (Imexamine.get_options e)) eqn:E; [|reflexivity].
  apply mem_In in E. unfold single_char_keys in H. rewrite Forall_forall in H.
  apply H in E. discriminate E.
Qed.

(** The pass of an event that ends the session. *)
Lemma exit_pass (fuel : nat) (l : Connect.locals) (s : Connect.State)
    (o : cursor_outcome) (d : display) (rest : list (cursor_outcome * display)) :
  single_char_keys (Connect.exam (Connect.self s)) ->
  keeps_session o = false ->
  pending (Connect.viewer s) = (o, d) :: rest ->
  Connect.key_truthy (Connect.current_key l) = true ->
  exists es,
    Connect.while_current_key (S fuel)
      (Imexamine.get_options (Connect.exam (Connect.self s))) l s =
    (Account.session_result o, after_read (refreshed s) d rest es) /\
    Obs.invocations es = [] /\
    Account.handler_calls es = [] /\
    Obs.count (Obs.is_print "Invalid key") es = Account.exit_messages o /\
    Obs.count Obs.is_cursor_read es = 0 /\
    Obs.count Account.is_frame_poll es = 0 /\
    Obs.count Obs.is_data_fetch es = 0 /\
    Obs.count Account.is_filename_query es = 0.
Proof.
  intros Hkeys Ho Hp Hl. rewrite while_step by exact Hl.
  destruct o as [cx cy k|e].
  - cbn [keeps_session] in Ho. cbn [Account.session_result Account.exit_messages].
    destruct (PyStr.contains "q" k) eqn:Hq.
    + rewrite (pass_quit _ l s cx cy k d rest Hp Hq).
      rewrite while_done by reflexivity.
      exists []. repeat split; reflexivity.
    + rewrite andb_true_r in Ho. destruct k as [|c k]; [|discriminate Ho].
      rewrite (pass_invalid _ l s cx cy "" d rest Hp (empty_key_unbound _ Hkeys) Hq).
      rewrite while_done by reflexivity.
      exists [Print "Invalid key"]. repeat split; reflexivity.
  - assert (Hdec : e = KeyError \/ e <> KeyError)
      by (destruct e; (now left) || (right; discriminate)).
    destruct Hdec as [->|Hother].
    + rewrite (pass_KeyError _ l s d rest Hp).
      rewrite while_done by reflexivity.
      exists [Print "Invalid key"]. repeat split; reflexivity.
    + rewrite (pass_other_error _ l s e d rest Hother Hp).
      exists []. destruct e; try (now elim Hother); repeat split; reflexivity.
Qed.

(** The complete account of a session that started with an image and ended
    on the first event that does not keep it going. *)
Lemma session_account (s : Connect.State) (fuel : nat)
    (prefix : list (cursor_outcome * display)) (o : cursor_outcome) (d : display)
    (rest : list (cursor_outcome * display)) :
  PyStr.truthy (d_filename (shown (Connect.viewer s))) = true ->
  single_char_keys (Connect.exam (Connect.self s)) ->
  Imexamine.get_options (Connect.exam (Connect.self s)) <> [] ->
  Forall (fun od => keeps_session (fst od) = true) prefix ->
  keeps_session o = false ->
  pending (Connect.viewer s) = prefix ++ (o, d) :: rest ->
  length prefix < fuel ->
  let e := Connect.exam (Connect.self s) in
  let now := shown (Connect.viewer s) in
  exists s',
    Connect.imexam fuel s = (Account.session_result o, s') /\
    Connect.viewer s' = mkViewer d rest /\
    Account.handler_calls (Connect.trace s') =
      Account.handler_calls (Connect.trace s) ++ Account.bound_presses e prefix /\
    Obs.count (Obs.is_print "Invalid key") (Connect.trace s') =
      Obs.count (Obs.is_print "Invalid key") (Connect.trace s) +
      Account.unbound_presses e prefix + Account.exit_messages o /\
    Obs.count Obs.is_cursor_read (Connect.trace s') =
      Obs.count Obs.is_cursor_read (Connect.trace s) + length prefix + 1 /\
    Obs.count Account.is_frame_poll (Connect.trace s') =
      Obs.count Account.is_frame_poll (Connect.trace s) + length prefix + 2 /\
    Obs.count Obs.is_data_fetch (Connect.trace s') =
      Obs.count Obs.is_data_fetch (Connect.trace s) + 1 +
      Account.frame_changes (d_frame now) now (prefix ++ [(o, d)]) /\
    Obs.count Account.is_filename_query (Connect.trace s') =
      Obs.count Account.is_filename_query (Connect.trace s) + 2 +
      Account.frame_changes (d_frame now) now (prefix ++ [(o, d)]).
Proof.
  intros Himg Hkeys Hne Halive Hexit Hp Hfuel. cbv zeta.
  destruct (Imexamine.get_options (Connect.exam (Connect.self s)))
    as [|k0 ks] eqn:Hopts; [now elim Hne|].
  assert (Hk0 : PyStr.truthy k0 = true).
  { apply single_truthy. unfold single_char_keys in Hkeys.
    rewrite Hopts in Hkeys. now inversion Hkeys. }
  rewrite (imexam_enter _ _ Himg).
  rewrite (run_imexam_enter _ (image_loaded s) k0 ks) by exact Hopts.
  set (s1 := session_start (image_loaded s)).
  replace fuel with (length prefix + S (fuel - length prefix - 1)) by lia.
  destruct (run_account prefix (S (fuel - length prefix - 1))
              (Connect.mkLocals None None (Some k0)) s1 ((o, d) :: rest)
              Halive Hp Hk0)
    as [l0 [s0 [Hrun [Hp0 [Hl0 [Hb0 [Hc0 [Hi0 [Hr0 [Hpl0 [Hf0 Hn0]]]]]]]]]]].
  cbv zeta in Hrun, Hc0, Hi0.
  assert (Hb1 : bindings_of s1 = bindings_of s) by reflexivity.
  assert (He1 : Imexamine.imexam_option_funcs (Connect.exam (Connect.self s1)) =
                Imexamine.imexam_option_funcs (Connect.exam (Connect.self s)))
    by reflexivity.
  destruct (bound_presses_by_bindings (Connect.exam (Connect.self s))
              (Connect.exam (Connect.self s1)) prefix He1) as [Hbp Hup].
  rewrite Hbp in Hc0. rewrite Hup in Hi0.
  rewrite (options_by_bindings s s1 Hb1), Hopts in Hrun. rewrite Hrun.
  assert (Hkeys0 : single_char_keys (Connect.exam (Connect.self s0))).
  { unfold single_char_keys.
    rewrite (options_by_bindings s1 s0 Hb0), (options_by_bindings s s1 Hb1).
    exact Hkeys. }
  destruct (exit_pass (fuel - length prefix - 1) l0 s0 o d rest Hkeys0 Hexit Hp0 Hl0)
    as [es [Hfin [_ [E1 [E2 [E3 [E4 [E5 E6]]]]]]]].
  rewrite (options_by_bindings s1 s0 Hb0), (options_by_bindings s s1 Hb1), Hopts in Hfin.
  rewrite Hfin. eexists. split; [reflexivity|]. split; [reflexivity|].
  destruct (pass_account s0 d rest es) as [A1 [A2 [A3 [A4 [A5 A6]]]]].
  cbv zeta in A1, A2, A3, A4, A5, A6.
  rewrite A1, A2, A3, A4, A5, A6, E1, E2, E3, E4, E5, E6.
  specialize (Hf0 [(o, d)]). specialize (Hn0 [(o, d)]).
  cbn [Account.frame_changes] in Hf0, Hn0.
  rewrite Hc0, Hi0, Hr0, Hpl0.
  subst s1. rewrite entry_trace in *.
  destruct (entry_events_quiet s) as [_ [P0 R0]].
  destruct (entry_events_account s) as [C0 [F0 [D0 N0]]].
  rewrite handler_calls_app, !count_app, C0, P0, R0, F0 in *.
  rewrite D0 in Hf0. rewrite N0 in Hn0.
  cbn [Connect.self Connect.viewer session_start image_loaded Connect.current_frame]
    in Hf0, Hn0.
  split; [now rewrite !app_nil_r|].
  repeat split; lia.
Qed.

(** X1: a session that started with an image ends at the first event that
    is a failed cursor read, an empty key or a key with the letter q (events
    before it being keys without q).  It returns normally, except for a
    failure other than KeyError, which leaves the entry point; the cursor has
    been read once per event up to that one, and the events after it are
    left unread. *)
Theorem session_ends_at_first_terminating_event
    (s : Connect.State) (fuel : nat) (prefix : list (cursor_outcome * display))
    (o : cursor_outcome) (d : display) (rest : list (cursor_outcome * display)) :
  PyStr.truthy (d_filename (shown (Connect.viewer s))) = true ->
  single_char_keys (Connect.exam (Connect.self s)) ->
  Imexamine.get_options (Connect.exam (Connect.self s)) <> [] ->
  Forall (fun od => keeps_session (fst od) = true) prefix ->
  keeps_session o = false ->
  pending (Connect.viewer s) = prefix ++ (o, d) :: rest ->
  length prefix < fuel ->
  exists s',
    Connect.imexam fuel s =
      (match o with
       | CursorFail KeyError => Ok tt
       | CursorFail e => Raise e
       | CursorOk _ _ _ => Ok tt
       end, s') /\
    Connect.viewer s' = mkViewer d rest /\
    Obs.count Obs.is_cursor_read (Connect.trace s') =
      Obs.count Obs.is_cursor_read (Connect.trace s) + length prefix + 1.
Proof.
  intros Himg Hkeys Hne Halive Hexit Hp Hfuel.
  destruct (session_account s fuel prefix o d rest Himg Hkeys Hne Halive Hexit Hp Hfuel)
    as [s' [Hres [Hview [_ [_ [Hreads _]]]]]].
  exists s'. split; [|split; assumption].
  rewrite Hres. unfold Account.session_result. now destruct o as [? ? ?|[]].
Qed.

Lemma session_ends_at_first_terminating_event_witness :
  exists s',
    Connect.imexam 2
      (Sample.state Sample.frame1 (Sample.a_then_failure (OtherError "IOError")))
    = (Raise (OtherError "IOError"), s') /\
    Connect.viewer s' =
      mkViewer Sample.frame1 [(CursorOk 11%float 21%float "h", Sample.frame1)] /\
    Obs.count Obs.is_cursor_read (Connect.trace s') = 2.
Proof.
  apply (session_ends_at_first_terminating_event
           (Sample.state Sample.frame1 (Sample.a_then_failure (OtherError "IOError"))) 2
           [(CursorOk 10%float 20%float "a", Sample.frame1)]
           (CursorFail (OtherError "IOError")) Sample.frame1
           [(CursorOk 11%float 21%float "h", Sample.frame1)]).
  - reflexivity.
  - repeat constructor.
  - discriminate.
  - repeat constructor.
  - reflexivity.
  - reflexivity.
  - cbn. lia.
Defined.

(** X2: in a session that started with an image, the handlers called are
    exactly those bound to the keys pressed before the event that ends the
    session, one call per press, in the order of the presses and each at the
    position of its press.  The event that ends the session calls none, even
    if its key is registered. *)
Theorem handlers_called_in_order_of_presses
    (s : Connect.State) (fuel : nat) (prefix : list (cursor_outcome * display))
    (o : cursor_outcome) (d : display) (rest : list (cursor_outcome * display)) :
  PyStr.truthy (d_filename (shown (Connect.viewer s))) = true ->
  single_char_keys (Connect.exam (Connect.self s)) ->
  Imexamine.get_options (Connect.exam (Connect.self s)) <> [] ->
  Forall (fun od => keeps_session (fst od) = true) prefix ->
  keeps_session o = false ->
  pending (Connect.viewer s) = prefix ++ (o, d) :: rest ->
  length prefix < fuel ->
  Account.handler_calls (Connect.trace (snd (Connect.imexam fuel s))) =
    Account.handler_calls (Connect.trace s) ++
    Account.bound_presses (Connect.exam (Connect.self s)) prefix.
Proof.
  intros Himg Hkeys Hne Halive Hexit Hp Hfuel.
  destruct (session_account s fuel prefix o d rest Himg Hkeys Hne Halive Hexit Hp Hfuel)
    as [s' [Hres [_ [Hcalls _]]]].
  rewrite Hres. exact Hcalls.
Qed.

Lemma handlers_called_in_order_of_presses_witness :
  Account.handler_calls
    (Connect.trace (snd (Connect.imexam 3 (Sample.state Sample.frame1 switch_then_press))))
  = [(PyFunc "aper_phot" 3, 10%float, 20%float);
     (PyFunc "histogram" 3, 11%float, 21%float)].
Proof.
  apply (handlers_called_in_order_of_presses
           (Sample.state Sample.frame1 switch_then_press) 3
           [(CursorOk 10%float 20%float "a", Sample.frame2);
            (CursorOk 11%float 21%float "h", Sample.frame2)]
           (CursorOk 12%float 22%float "q") Sample.frame2 []).
  - reflexivity.
  - repeat constructor.
  - discriminate.
  - repeat constructor.
  - reflexivity.
  - reflexivity.
  - cbn. lia.
Defined.

(** X5: in a session that started with an image, "Invalid key" is printed
    once for each unbound key pressed before the event that ends the session,
    and once more when that event is a KeyError or an empty key; a key with
    the letter q and a failure of another kind print nothing. *)
Theorem invalid_key_messages_of_a_session
    (s : Connect.State) (fuel : nat) (prefix : list (cursor_outcome * display))
    (o : cursor_outcome) (d : display) (rest : list (cursor_outcome * display)) :
  PyStr.truthy (d_filename (shown (Connect.viewer s))) = true ->
  single_char_keys (Connect.exam (Connect.self s)) ->
  Imexamine.get_options (Connect.exam (Connect.self s)) <> [] ->
  Forall (fun od => keeps_session (fst od) = true) prefix ->
  keeps_session o = false ->
  pending (Connect.viewer s) = prefix ++ (o, d) :: rest ->
  length prefix < fuel ->
  Obs.count (Obs.is_print "Invalid key")
    (Connect.trace (snd (Connect.imexam fuel s))) =
  Obs.count (Obs.is_print "Invalid key") (Connect.trace s) +
  Account.unbound_presses (Connect.exam (Connect.self s)) prefix +
  match o with
  | CursorOk _ _ k => if PyStr.contains "q" k then 0 else 1
  | CursorFail KeyError => 1
  | CursorFail _ => 0
  end.
Proof.
  intros Himg Hkeys Hne Halive Hexit Hp Hfuel.
  destruct (session_account s fuel prefix o d rest Himg Hkeys Hne Halive Hexit Hp Hfuel)
    as [s' [Hres [_ [_ [Hinv _]]]]].
  rewrite Hres. exact Hinv.
Qed.

Lemma invalid_key_messages_of_a_session_witness :
  Obs.count (Obs.is_print "Invalid key")
    (Connect.trace (snd (Connect.imexam 5
       (Sample.state Sample.frame1
          [(CursorOk 1%float 1%float "z", Sample.frame1);
           (CursorOk 2%float 2%float "a", Sample.frame1);
           (CursorOk 3%float 3%float "y", Sample.frame1);
           (CursorOk 4%float 4%float "", Sample.frame1)])))) = 3.
Proof.
  apply (invalid_key_messages_of_a_session
           (Sample.state Sample.frame1
              [(CursorOk 1%float 1%float "z", Sample.frame1);
               (CursorOk 2%float 2%float "a", Sample.frame1);
               (CursorOk 3%float 3%float "y", Sample.frame1);
               (CursorOk 4%float 4%float "", Sample.frame1)]) 5
           [(CursorOk 1%float 1%float "z", Sample.frame1);
            (CursorOk 2%float 2%float "a", Sample.frame1);
            (CursorOk 3%float 3%float "y", Sample.frame1)]
           (CursorOk 4%float 4%float "") Sample.frame1 []).
  - reflexivity.
  - repeat constructor.
  - discriminate.
  - repeat constructor.
  - reflexivity.
  - reflexivity.
  - cbn. lia.
Defined.

(** X6: the calls a session makes on the viewer.  The frame identity is
    asked once on entry and once in every pass; the pixel data is fetched
    once on entry and once more in each pass that finds a frame identity
    different from the one of the pass before; the filename is asked twice on
    entry and once more with each such fetch. *)
Theorem viewer_calls_of_a_session
    (s : Connect.State) (fuel : nat) (prefix : list (cursor_outcome * display))
    (o : cursor_outcome) (d : display) (rest : list (cursor_outcome * display)) :
  PyStr.truthy (d_filename (shown (Connect.viewer s))) = true ->
  single_char_keys (Connect.exam (Connect.self s)) ->
  Imexamine.get_options (Connect.exam (Connect.self s)) <> [] ->
  Forall (fun od => keeps_session (fst od) = true) prefix ->
  keeps_session o = false ->
  pending (Connect.viewer s) = prefix ++ (o, d) :: rest ->
  length prefix < fuel ->
  let tr := Connect.trace s in
  let tr' := Connect.trace (snd (Connect.imexam fuel s)) in
  let now := shown (Connect.viewer s) in
  let changes := Account.frame_changes (d_frame now) now (prefix ++ [(o, d)]) in
  Obs.count Account.is_frame_poll tr' =
    Obs.count Account.is_frame_poll tr + length prefix + 2 /\
  Obs.count Obs.is_data_fetch tr' = Obs.count Obs.is_data_fetch tr + 1 + changes /\
  Obs.count Account.is_filename_query tr' =
    Obs.count Account.is_filename_query tr + 2 + changes.
Proof.
  intros Himg Hkeys Hne Halive Hexit Hp Hfuel. cbv zeta.
  destruct (session_account s fuel prefix o d rest Himg Hkeys Hne Halive Hexit Hp Hfuel)
    as [s' [Hres [_ [_ [_ [_ [Hpoll [Hfetch Hname]]]]]]]].
  rewrite Hres. cbn [snd]. repeat split; assumption.
Qed.

Lemma viewer_calls_of_a_session_witness :
  let tr' :=
    Connect.trace (snd (Connect.imexam 3 (Sample.state Sample.frame1 switch_then_press))) in
  Obs.count Account.is_frame_poll tr' = 4 /\
  Obs.count Obs.is_data_fetch tr' = 2 /\
  Obs.count Account.is_filename_query tr' = 3.
Proof.
  apply (viewer_calls_of_a_session
           (Sample.state Sample.frame1 switch_then_press) 3
           [(CursorOk 10%float 20%float "a", Sample.frame2);
            (CursorOk 11%float 21%float "h", Sample.frame2)]
           (CursorOk 12%float 22%float "q") Sample.frame2 []).
  - reflexivity.
  - repeat constructor.
  - discriminate.
  - repeat constructor.
  - reflexivity.
  - reflexivity.
  - cbn. lia.
Defined.

(* ================================================================== *)
(** ** The buffer a handler receives *)

Lemma refreshed_same_self (s : Connect.State) :
  Connect.current_frame (Connect.self s) = d_frame (shown (Connect.viewer s)) ->
  Connect.self (refreshed s) = Connect.self s.
Proof. intros H. unfold refreshed. now rewrite (refresh_same s H). Qed.

Lemma run_same_frame (prefix : list (cursor_outcome * display)) :
  forall (fuel : nat) (l : Connect.locals) (s : Connect.State)
         (rest : list (cursor_outcome * display)),
    Forall (fun od => keeps_session (fst od) = true) prefix ->
    pending (Connect.viewer s) = prefix ++ rest ->
    Connect.key_truthy (Connect.current_key l) = true ->
    Connect.current_frame (Connect.self s) = d_frame (shown (Connect.viewer s)) ->
    Forall (fun od => d_frame (snd od) = d_frame (shown (Connect.viewer s))) prefix ->
    let e := Connect.exam (Connect.self s) in
    exists l' s',
      Connect.while_current_key (length prefix + fuel) (Imexamine.get_options e) l s =
      Connect.while_current_key fuel (Imexamine.get_options e) l' s' /\
      pending (Connect.viewer s') = rest /\
      Connect.key_truthy (Connect.current_key l') = true /\
      Connect.self s' = Connect.self s /\
      d_frame (shown (Connect.viewer s')) = d_frame (shown (Connect.viewer s)) /\
      Obs.invocations (Connect.trace s') =
        Obs.invocations (Connect.trace s) ++
        map (call_with (Imexamine._data e)) (Account.bound_presses e prefix) /\
      Obs.count Obs.is_data_fetch (Connect.trace s') =
        Obs.count Obs.is_data_fetch (Connect.trace s).
Proof.
  induction prefix as [|[o d] prefix IH];
    intros fuel l s rest Halive Hp Hl Hcur Hsame; cbv zeta.
  - exists l, s. cbn [length Nat.add app Account.bound_presses flat_map map].
    rewrite app_nil_r. repeat split; assumption.
  - inversion Halive as [|? ? Ho Hrest]; subst.
    inversion Hsame as [|? ? Hd Hsame']; subst. cbn [snd] in Hd.
    destruct o as [cx cy k|e0]; [|discriminate].
    cbn in Ho. apply andb_true_iff in Ho. destruct Ho as [Hk Hq].
    apply negb_true_iff in Hq.
    cbn [length Nat.add]. rewrite while_step by exact Hl.
    set (e := Connect.exam (Connect.self s)).
    set (keys := Imexamine.get_options e).
    assert (Hstep : exists es,
              Connect.loop_body keys l s =
              (Ok (Connect.mkLocals (Some cx) (Some cy) (Some k)),
               after_read (refreshed s) d (prefix ++ rest) es) /\
              Obs.invocations es =
                map (call_with (Imexamine._data e))
                    (Account.bound_presses e [(CursorOk cx cy k, d)]) /\
              Obs.count Obs.is_data_fetch es = 0).
    { unfold Account.bound_presses. cbn [flat_map fst].
      destruct (Imexamine.resolve k e) as [b|] eqn:Hr.
      - eexists. split.
        + apply (pass_dispatch keys l s cx cy k d _ b Hp
                   (mem_of_resolve k e b Hr) Hq Hr).
        + rewrite (refreshed_data_same s Hcur). split; reflexivity.
      - eexists. split.
        + apply (pass_invalid keys l s cx cy k d _ Hp (resolve_none_mem k e Hr) Hq).
        + split; reflexivity. }
    destruct Hstep as [es [Hbody [Hinv Hfetch]]]. rewrite Hbody.
    set (s1 := after_read (refreshed s) d (prefix ++ rest) es).
    assert (Hself : Connect.self s1 = Connect.self s)
      by (apply (refreshed_same_self s Hcur)).
    assert (Hcur1 : Connect.current_frame (Connect.self s1) =
                    d_frame (shown (Connect.viewer s1)))
      by (rewrite Hself, Hcur; symmetry; exact Hd).
    assert (Hsame1 : Forall (fun od => d_frame (snd od) =
                                       d_frame (shown (Connect.viewer s1))) prefix).
    { cbn [s1 after_read Connect.viewer shown]. rewrite Hd. exact Hsame'. }
    destruct (IH fuel (Connect.mkLocals (Some cx) (Some cy) (Some k)) s1 rest
                Hrest eq_refl Hk Hcur1 Hsame1)
      as [l' [s' [Hrun [Hp' [Hl' [Hs' [Hf' [Hi' Hc']]]]]]]].
    cbv zeta in Hrun, Hi'. rewrite Hself in Hrun, Hi'.
    exists l', s'. split; [exact Hrun|].
    split; [exact Hp'|]. split; [exact Hl'|]. split; [congruence|].
    split; [rewrite Hf'; exact Hd|].
    destruct (pass_counts (Connect.trace s) _ es (refresh_events_quiet s))
      as [I _].
    destruct (pass_account s d (prefix ++ rest) es) as [_ [_ [_ [_ [A5 _]]]]].
    cbv zeta in A5. rewrite Hcur, String.eqb_refl in A5.
    split.
    + rewrite Hi'. subst s1. rewrite after_read_trace, I, Hinv, <- app_assoc.
      change ((CursorOk cx cy k, d) :: prefix) with ([(CursorOk cx cy k, d)] ++ prefix).
      unfold Account.bound_presses at 3. now rewrite flat_map_app, map_app.
    + rewrite Hc'. subst s1. rewrite A5, Hfetch. lia.
Qed.

(** X7: frame changes are detected by the frame identity alone.  In a
    session during which the viewer always reports the frame identity it
    reported on entry, the pixel data is fetched once, on entry, and every
    handler call receives that buffer, whatever pixel data the viewer holds
    by then. *)
Theorem same_frame_identity_keeps_first_buffer
    (s : Connect.State) (fuel : nat) (prefix : list (cursor_outcome * display))
    (o : cursor_outcome) (d : display) (rest : list (cursor_outcome * display)) :
  PyStr.truthy (d_filename (shown (Connect.viewer s))) = true ->
  single_char_keys (Connect.exam (Connect.self s)) ->
  Imexamine.get_options (Connect.exam (Connect.self s)) <> [] ->
  Forall (fun od => keeps_session (fst od) = true) prefix ->
  keeps_session o = false ->
  pending (Connect.viewer s) = prefix ++ (o, d) :: rest ->
  length prefix < fuel ->
  Forall (fun od => d_frame (snd od) = d_frame (shown (Connect.viewer s))) prefix ->
  let s' := snd (Connect.imexam fuel s) in
  let first := d_data (shown (Connect.viewer s)) in
  Obs.invocations (Connect.trace s') =
    Obs.invocations (Connect.trace s) ++
    map (call_with first)
        (Account.bound_presses (Connect.exam (Connect.self s)) prefix) /\
  Obs.count Obs.is_data_fetch (Connect.trace s') =
    Obs.count Obs.is_data_fetch (Connect.trace s) + 1 /\
  Imexamine._data (Connect.exam (Connect.self s')) = first.
Proof.
  intros Himg Hkeys Hne Halive Hexit Hp Hfuel Hsame. cbv zeta.
  destruct (Imexamine.get_options (Connect.exam (Connect.self s)))
    as [|k0 ks] eqn:Hopts; [now elim Hne|].
  assert (Hk0 : PyStr.truthy k0 = true).
  { apply single_truthy. unfold single_char_keys in Hkeys.
    rewrite Hopts in Hkeys. now inversion Hkeys. }
  rewrite (imexam_enter _ _ Himg).
  rewrite (run_imexam_enter _ (image_loaded s) k0 ks) by exact Hopts.
  set (s1 := session_start (image_loaded s)).
  replace fuel with (length prefix + S (fuel - length prefix - 1)) by lia.
  destruct (run_same_frame prefix (S (fuel - length prefix - 1))
              (Connect.mkLocals None None (Some k0)) s1 ((o, d) :: rest)
              Halive Hp Hk0 eq_refl Hsame)
    as [l0 [s0 [Hrun [Hp0 [Hl0 [Hs0 [Hf0 [Hi0 Hc0]]]]]]]].
  cbv zeta in Hrun, Hi0.
  assert (Hb1 : bindings_of s1 = bindings_of s) by reflexivity.
  assert (He1 : Imexamine.imexam_option_funcs (Connect.exam (Connect.self s1)) =
                Imexamine.imexam_option_funcs (Connect.exam (Connect.self s)))
    by reflexivity.
  destruct (bound_presses_by_bindings (Connect.exam (Connect.self s))
              (Connect.exam (Connect.self s1)) prefix He1) as [Hbp _].
  rewrite Hbp in Hi0.
  rewrite (options_by_bindings s s1 Hb1), Hopts in Hrun. rewrite Hrun.
  assert (Hkeys0 : single_char_keys (Connect.exam (Connect.self s0)))
    by (rewrite Hs0; exact Hkeys).
  destruct (exit_pass (fuel - length prefix - 1) l0 s0 o d rest Hkeys0 Hexit Hp0 Hl0)
    as [es [Hfin [E0 [_ [_ [_ [_ [E5 _]]]]]]]].
  rewrite Hs0 in Hfin.
  change (Imexamine.get_options (Connect.exam (Connect.self s1)))
    with (Imexamine.get_options (Connect.exam (Connect.self s))) in Hfin.
  rewrite Hopts in Hfin. rewrite Hfin. cbn [snd].
  assert (Hcur0 : Connect.current_frame (Connect.self s0) =
                  d_frame (shown (Connect.viewer s0)))
    by (rewrite Hs0, Hf0; reflexivity).
  destruct (pass_counts (Connect.trace s0) _ es (refresh_events_quiet s0)) as [I _].
  destruct (pass_account s0 d rest es) as [_ [_ [_ [_ [A5 _]]]]].
  cbv zeta in A5. rewrite Hcur0, String.eqb_refl in A5.
  split; [|split].
  - rewrite after_read_trace, I, E0, app_nil_r, Hi0.
    subst s1. rewrite entry_trace, invocations_app.
    destruct (entry_events_quiet s) as [I0 _]. rewrite I0, app_nil_r. reflexivity.
  - rewrite A5, E5, Hc0. subst s1. rewrite entry_trace, count_app.
    destruct (entry_events_account s) as [_ [_ [D0 _]]]. rewrite D0. lia.
  - unfold after_read. cbn [Connect.self].
    rewrite (refreshed_same_self s0 Hcur0), Hs0. reflexivity.
Qed.

Lemma same_frame_identity_keeps_first_buffer_witness :
  let s' := snd (Connect.imexam 3 (Sample.state Sample.frame1 same_frame_reload)) in
  Obs.invocations (Connect.trace s') =
    [Invoke (PyFunc "aper_phot" 3) Sample.buffer1 10%float 20%float;
     Invoke (PyFunc "aper_phot" 3) Sample.buffer1 11%float 21%float] /\
  Obs.count Obs.is_data_fetch (Connect.trace s') = 1 /\
  Imexamine._data (Connect.exam (Connect.self s')) = Sample.buffer1.
Proof.
  apply (same_frame_identity_keeps_first_buffer
           (Sample.state Sample.frame1 same_frame_reload) 3
           [(CursorOk 10%float 20%float "a", mkDisplay "1" "m31.fits" Sample.buffer2);
            (CursorOk 11%float 21%float "a", mkDisplay "1" "m31.fits" Sample.buffer2)]
           (CursorOk 12%float 22%float "q")
           (mkDisplay "1" "m31.fits" Sample.buffer2) []).
  - reflexivity.
  - repeat constructor.
  - discriminate.
  - repeat constructor.
  - reflexivity.
  - reflexivity.
  - cbn. lia.
  - repeat constructor.
Defined.

(** X8: the frame is checked before the cursor read, never after it.  When
    the viewer has moved to another frame by the time a key press is read,
    the handler of that press is still called with the buffer of the frame
    shown before the read; the new frame's data is fetched in the next pass
    and is what the handler of the next press receives. *)
Theorem frame_switch_reaches_next_press
    (s : Connect.State) (fuel : nat) (a1 a2 : string) (b1 b2 : Imexamine.KeyBinding)
    (x1 y1 x2 y2 xq yq : coord) (d1 d2 d3 : display)
    (rest : list (cursor_outcome * display)) :
  PyStr.truthy (d_filename (shown (Connect.viewer s))) = true ->
  single_char_keys (Connect.exam (Connect.self s)) ->
  Imexamine.resolve a1 (Connect.exam (Connect.self s)) = Some b1 -> a1 <> "q" ->
  Imexamine.resolve a2 (Connect.exam (Connect.self s)) = Some b2 -> a2 <> "q" ->
  d_frame d1 <> d_frame (shown (Connect.viewer s)) ->
  pending (Connect.viewer s) =
    (CursorOk x1 y1 a1, d1) :: (CursorOk x2 y2 a2, d2) :: (CursorOk xq yq "q", d3) :: rest ->
  3 <= fuel ->
  Obs.invocations (Connect.trace (snd (Connect.imexam fuel s))) =
    Obs.invocations (Connect.trace s) ++
    [Invoke (Imexamine.handler b1) (d_data (shown (Connect.viewer s))) x1 y1;
     Invoke (Imexamine.handler b2) (d_data d1) x2 y2].
Proof.
  intros Himg Hkeys Hb1 Hq1 Hb2 Hq2 Hswitch Hp Hfuel.
  destruct fuel as [|[|[|fuel]]]; try lia. clear Hfuel.
  pose proof (mem_of_resolve a1 _ b1 Hb1) as Hm1.
  pose proof (mem_of_resolve a2 _ b2 Hb2) as Hm2.
  assert (Hlen : forall a, PyStr.mem a (Imexamine.get_options
                                          (Connect.exam (Connect.self s))) = true ->
                           String.length a = 1).
  { intros a Ha. unfold single_char_keys in Hkeys. rewrite Forall_forall in Hkeys.
    apply Hkeys. now apply mem_In. }
  pose proof (Hlen a1 Hm1) as Hl1. pose proof (Hlen a2 Hm2) as Hl2.
  destruct (Imexamine.get_options (Connect.exam (Connect.self s)))
    as [|k0 ks] eqn:Hopts; [discriminate|].
  assert (Hk0 : PyStr.truthy k0 = true).
  { apply single_truthy. apply Hlen. cbn. now rewrite String.eqb_refl. }
  rewrite (imexam_enter _ _ Himg).
  rewrite (run_imexam_enter _ (image_loaded s) k0 ks) by exact Hopts.
  set (s1 := session_start (image_loaded s)).
  rewrite while_step by exact Hk0.
  rewrite (pass_dispatch _ _ s1 x1 y1 a1 d1 _ b1 Hp Hm1
             (contains_q_single a1 Hl1 Hq1) Hb1).
  set (s2 := after_read (refreshed s1) d1 _ _).
  assert (Hb2' : Imexamine.resolve a2 (Connect.exam (Connect.self s2)) = Some b2).
  { rewrite <- Hb2. apply resolve_by_bindings.
    change (bindings_of s) with (bindings_of s1). apply after_read_bindings. }
  rewrite while_step by exact (single_truthy a1 Hl1).
  rewrite (pass_dispatch _ _ s2 x2 y2 a2 d2 _ b2 eq_refl Hm2
             (contains_q_single a2 Hl2 Hq2) Hb2').
  set (s3 := after_read (refreshed s2) d2 _ _).
  rewrite while_step by exact (single_truthy a2 Hl2).
  rewrite (pass_quit _ _ s3 xq yq "q" d3 rest eq_refl eq_refl).
  rewrite while_done by reflexivity. cbn [snd].
  assert (Hd1 : refreshed_data s1 = d_data (shown (Connect.viewer s)))
    by (now rewrite refreshed_data_same).
  assert (Hd2 : refreshed_data s2 = d_data d1).
  { unfold refreshed_data.
    replace (Connect.current_frame (Connect.self s2))
      with (d_frame (shown (Connect.viewer s)))
      by (symmetry; exact (refreshed_frame s1)).
    cbn [s2 after_read Connect.viewer shown].
    destruct (String.eqb_spec (d_frame (shown (Connect.viewer s))) (d_frame d1))
      as [E|E]; [now elim Hswitch | reflexivity]. }
  rewrite after_read_trace.
  destruct (pass_counts (Connect.trace s3) _ [] (refresh_events_quiet s3)) as [I3 _].
  rewrite I3. clear I3. subst s3. rewrite after_read_trace.
  destruct (pass_counts (Connect.trace s2) _
              [Invoke (Imexamine.handler b2) (refreshed_data s2) x2 y2]
              (refresh_events_quiet s2)) as [I2 _].
  rewrite I2, Hd2. clear I2. subst s2. rewrite after_read_trace.
  destruct (pass_counts (Connect.trace s1) _
              [Invoke (Imexamine.handler b1) (refreshed_data s1) x1 y1]
              (refresh_events_quiet s1)) as [I1 _].
  rewrite I1, Hd1. clear I1. subst s1. rewrite entry_trace.
  destruct (entry_events_quiet s) as [I0 _].
  rewrite invocations_app, I0. cbn. now rewrite !app_nil_r, <- app_assoc.
Qed.

Lemma frame_switch_reaches_next_press_witness :
  Obs.invocations
    (Connect.trace (snd (Connect.imexam 3 (Sample.state Sample.frame1 switch_then_press))))
  = [Invoke (PyFunc "aper_phot" 3) Sample.buffer1 10%float 20%float;
     Invoke (PyFunc "histogram" 3) Sample.buffer2 11%float 21%float].
Proof.
  apply (frame_switch_reaches_next_press
           (Sample.state Sample.frame1 switch_then_press) 3
           "a" "h" Sample.aper_phot Sample.histogram
           10%float 20%float 11%float 21%float 12%float 22%float
           Sample.frame2 Sample.frame2 Sample.frame2 []).
  - reflexivity.
  - repeat constructor.
  - reflexivity.
  - discriminate.
  - reflexivity.
  - discriminate.
  - discriminate.
  - reflexivity.
  - lia.
Defined.
